(** * Progressive bracket allocation of the tax calculator

    A shallow embedding of [calculateTaxes], the function of the
    [TaxCalculator] component (src/App.tsx) that allocates an income to the
    brackets, and the properties that the specification states about it.

    Numbers.  A JavaScript [number] is modelled by [number]: an exact
    rational, or one of the three special values [Infinity], [-Infinity]
    and [NaN].  The arithmetic on finite values is exact; the special values
    follow the IEEE 754 rules that JavaScript uses.  Rounding to 53 bits,
    overflow of finite values and the sign of zero are not part of
    [number].  The properties below are stated so that they do not depend
    on them; where a property of the exact arithmetic is lost to rounding
    or overflow, [Binary64], the same calculation on binary64 numbers,
    shows it on a concrete input.

    Arrays.  A JavaScript array is a mutable object that is passed by
    reference.  Bracket arrays live in a heap, a finite map from locations
    to lists, so that copying ([[...brackets]]) and sorting in place
    ([Array.prototype.sort]) are distinct operations.  Bracket objects are
    never written to by the code and are modelled as values.

    Component state.  [setTotalTax] and [setEffectiveRate] are modelled as
    writes to two fields of the state.  The calls to the logger only write
    to the console and are left out. *)

From Stdlib Require Import PrimFloat.
From stdpp Require Import gmap list sorting strings.
From Stdlib Require Import QArith Qminmax Lqa Permutation.

Local Open Scope Q_scope.

#[local] Set Warnings "-inexact-float".

(** ** JavaScript numbers *)

Inductive number : Type :=
  | Num (q : Q)
  | Infinity
  | NegInfinity
  | NaN.

(** The infinity whose sign is the sign recorded by a comparison with zero;
    a zero sign gives [NaN] (as in [0 * Infinity] and [0 / 0]). *)
Definition signedInfinity (c : comparison) : number :=
  match c with
  | Gt => Infinity
  | Lt => NegInfinity
  | Eq => NaN
  end.

Definition neg (x : number) : number :=
  match x with
  | Num a => Num (- a)
  | Infinity => NegInfinity
  | NegInfinity => Infinity
  | NaN => NaN
  end.

(** [x + y] *)
Definition add (x y : number) : number :=
  match x, y with
  | NaN, _ | _, NaN => NaN
  | Num a, Num b => Num (a + b)
  | Infinity, NegInfinity | NegInfinity, Infinity => NaN
  | Infinity, _ | _, Infinity => Infinity
  | NegInfinity, _ | _, NegInfinity => NegInfinity
  end.

(** [x - y] *)
Definition sub (x y : number) : number := add x (neg y).

(** [x * y] *)
Definition mul (x y : number) : number :=
  match x, y with
  | NaN, _ | _, NaN => NaN
  | Num a, Num b => Num (a * b)
  | Num a, Infinity | Infinity, Num a => signedInfinity (a ?= 0)
  | Num a, NegInfinity | NegInfinity, Num a => signedInfinity (0 ?= a)
  | Infinity, Infinity | NegInfinity, NegInfinity => Infinity
  | Infinity, NegInfinity | NegInfinity, Infinity => NegInfinity
  end.

(** [x / y]; a zero divisor is taken to be [+0]. *)
Definition div (x y : number) : number :=
  match x, y with
  | NaN, _ | _, NaN => NaN
  | Num a, Num b =>
      if Qeq_bool b 0 then signedInfinity (a ?= 0) else Num (a / b)
  | Num _, _ => Num 0
  | Infinity, Num b => if Qle_bool 0 b then Infinity else NegInfinity
  | NegInfinity, Num b => if Qle_bool 0 b then NegInfinity else Infinity
  | _, _ => NaN
  end.

(** [x > y]: false as soon as an operand is [NaN]. *)
Definition gt (x y : number) : bool :=
  match x, y with
  | NaN, _ | _, NaN => false
  | Num a, Num b => negb (Qle_bool a b)
  | Infinity, Infinity | NegInfinity, NegInfinity => false
  | Infinity, _ | _, NegInfinity => true
  | _, _ => false
  end.

(** [x <= y] *)
Definition le (x y : number) : bool :=
  match x, y with
  | NaN, _ | _, NaN => false
  | Num a, Num b => Qle_bool a b
  | Infinity, Infinity | NegInfinity, NegInfinity => true
  | Infinity, _ | _, NegInfinity => false
  | _, _ => true
  end.

(** [Math.max(x, y)] and [Math.min(x, y)]: [NaN] if an operand is [NaN]. *)
Definition Math_max (x y : number) : number :=
  match x, y with
  | NaN, _ | _, NaN => NaN
  | Num a, Num b => Num (Qmax a b)
  | Infinity, _ | _, Infinity => Infinity
  | NegInfinity, z | z, NegInfinity => z
  end.

Definition Math_min (x y : number) : number :=
  match x, y with
  | NaN, _ | _, NaN => NaN
  | Num a, Num b => Num (Qmin a b)
  | NegInfinity, _ | _, NegInfinity => NegInfinity
  | Infinity, z | z, Infinity => z
  end.

(** Two numbers denote the same value: the same special value, or equal
    rationals. *)
Definition sameValue (x y : number) : Prop :=
  match x, y with
  | Num a, Num b => a == b
  | Infinity, Infinity | NegInfinity, NegInfinity | NaN, NaN => True
  | _, _ => False
  end.

Definition isFinite (x : number) : Prop :=
  match x with Num _ => True | _ => False end.

(** ** The data of the component *)

Record TaxBracket : Type := mkTaxBracket {
  min : number;
  max : option number;
  rate : number
}.

Record TaxCalculation : Type := mkTaxCalculation {
  bracket : TaxBracket;
  taxableAmount : number;
  taxPaid : number
}.

(** ** Arrays of brackets, the heap and the component state *)

Definition loc : Type := positive.

Record State : Type := mkState {
  heap : gmap loc (list TaxBracket);
  totalTax : number;
  effectiveRate : number
}.

(** Computations that read and write the state; [None] is a [TypeError]
    (a location that holds no array). *)
Definition M (A : Type) : Type := State -> option (A * State).

Definition ret {A} (a : A) : M A := fun s => Some (a, s).

Definition bind {A B} (m : M A) (k : A -> M B) : M B :=
  fun s => match m s with
           | Some (a, s') => k a s'
           | None => None
           end.

Notation "x <- m ;; k" := (bind m (fun x => k))
  (at level 100, m at next level, right associativity).
Notation "m ;;; k" := (bind m (fun _ => k))
  (at level 100, right associativity).

Definition readArray (l : loc) : M (list TaxBracket) :=
  fun s => match heap s !! l with
           | Some bs => Some (bs, s)
           | None => None
           end.

Definition writeArray (l : loc) (bs : list TaxBracket) : M unit :=
  fun s => Some (tt, mkState (<[l := bs]> (heap s)) (totalTax s) (effectiveRate s)).

(** [[...a]]: a new array with the elements of [a]. *)
Definition spread (l : loc) : M loc :=
  bs <- readArray l ;;
  fun s =>
    let l' := fresh (dom (heap s)) in
    Some (l', mkState (<[l' := bs]> (heap s)) (totalTax s) (effectiveRate s)).

Definition setTotalTax (v : number) : M unit :=
  fun s => Some (tt, mkState (heap s) v (effectiveRate s)).

Definition setEffectiveRate (v : number) : M unit :=
  fun s => Some (tt, mkState (heap s) (totalTax s) v).

(** ** [Array.prototype.sort] *)

(** The sort is stable: an element moves behind another one only when the
    comparator returns a positive number for the pair, in this order ([NaN]
    counts as 0).  For a consistent comparator this fixes the result, which
    is computed here by insertion from the right.  For an inconsistent one
    (a [NaN] among the keys) the order is left to the implementation; the
    properties below that cover such arrays only use that the result is a
    rearrangement of the array. *)
Section Sort.
Context {A : Type} (comparefn : A -> A -> number).

Fixpoint insertSorted (x : A) (l : list A) : list A :=
  match l with
  | [] => [x]
  | y :: l' => if gt (comparefn x y) (Num 0)
               then y :: insertSorted x l'
               else x :: y :: l'
  end.

Fixpoint sorted (l : list A) : list A :=
  match l with
  | [] => []
  | x :: l' => insertSorted x (sorted l')
  end.

End Sort.

(** [a.sort(comparefn)] sorts the array in place and returns the array. *)
Definition Array_sort (comparefn : TaxBracket -> TaxBracket -> number)
    (l : loc) : M loc :=
  bs <- readArray l ;;
  writeArray l (sorted comparefn bs) ;;;
  ret l.

(** ** [calculateTaxes] *)

(** [(a, b) => a.min - b.min] *)
Definition byMin (a b : TaxBracket) : number := sub (min a) (min b).

(** [Math.max(0, Math.min(income - min, max - min))] with
    [max = bracket.max ?? Infinity]. *)
Definition taxableInBand (income : number) (b : TaxBracket) : number :=
  let min := min b in
  let max := default Infinity (max b) in
  Math_max (Num 0) (Math_min (sub income min) (sub max min)).

(** The body of the [forEach] callback, on the two local variables
    [calculations] and [totalTaxPaid] that it updates. *)
Definition forEachBody (income : number)
    (acc : list TaxCalculation * number) (b : TaxBracket)
    : list TaxCalculation * number :=
  let '(calculations, totalTaxPaid) := acc in
  let taxableInBand := taxableInBand income b in
  if gt taxableInBand (Num 0) then
    let taxPaid := mul taxableInBand (rate b) in
    (calculations ++ [mkTaxCalculation b taxableInBand taxPaid],
     add totalTaxPaid taxPaid)
  else acc.

Definition calculateTaxes (income : number) (brackets : loc)
    : M (list TaxCalculation) :=
  copy <- spread brackets ;;
  sortedBrackets <- Array_sort byMin copy ;;
  elements <- readArray sortedBrackets ;;
  let '(calculations, totalTaxPaid) :=
    fold_left (forEachBody income) elements ([], Num 0) in
  let effectiveRateValue := mul (div totalTaxPaid income) (Num 100) in
  setTotalTax totalTaxPaid ;;;
  setEffectiveRate effectiveRateValue ;;;
  ret calculations.

(** ** What a run of [calculateTaxes] computes *)

(** The allocation that the callback pushes for a bracket, and the test
    that guards the push. *)
Definition allocation (income : number) (b : TaxBracket) : TaxCalculation :=
  mkTaxCalculation b (taxableInBand income b)
    (mul (taxableInBand income b) (rate b)).

Definition emitted (income : number) (b : TaxBracket) : bool :=
  gt (taxableInBand income b) (Num 0).

(** The allocations and the total that the loop leaves behind for an
    array [bs] of brackets. *)
Definition allocations (income : number) (bs : list TaxBracket)
    : list TaxCalculation :=
  map (allocation income) (List.filter (emitted income) (sorted byMin bs)).

Definition total (income : number) (bs : list TaxBracket) : number :=
  fold_left add (map taxPaid (allocations income bs)) (Num 0).

(** The state after a call: the sorted copy sits at a location that was
    free before, and the two state fields are set. *)
Definition stateAfter (income : number) (bs : list TaxBracket) (s : State)
    : State :=
  mkState (<[fresh (dom (heap s)) := sorted byMin bs]> (heap s))
    (total income bs)
    (mul (div (total income bs) income) (Num 100)).

(** ** Notions of the specification *)

(** The brackets of the boundary scenario; the tests of the component mock
    the bracket provider with them. *)
Definition mockTaxBrackets : list TaxBracket :=
  [ mkTaxBracket (Num 0) (Some (Num 50000)) (Num 0.15);
    mkTaxBracket (Num 50000) (Some (Num 100000)) (Num 0.25);
    mkTaxBracket (Num 100000) None (Num 0.35) ].

(** A component state that holds [bs] at location 1 and nothing else. *)
Definition initialState (bs : list TaxBracket) : State :=
  mkState {[ 1%positive := bs ]} (Num 0) (Num 0).

(** Two allocations for the same bracket with the same amounts. *)
Definition sameCalculation (c d : TaxCalculation) : Prop :=
  bracket c = bracket d /\
  sameValue (taxableAmount c) (taxableAmount d) /\
  sameValue (taxPaid c) (taxPaid d).

(** The sum of [taxableAmount] over a sequence of allocations. *)
Definition sumTaxable (cs : list TaxCalculation) : number :=
  fold_right add (Num 0) (map taxableAmount cs).

(** A bracket as the provider's JSON can deliver it: finite bounds and a
    finite rate. *)
Definition finiteBracket (b : TaxBracket) : Prop :=
  isFinite (min b) /\ isFinite (rate b) /\
  match max b with Some m => isFinite m | None => True end.






(** The [min] values of the set are finite and pairwise different. *)
Definition minOf (b : TaxBracket) : Q :=
  match min b with Num q => q | _ => 0 end.

Definition distinctMins (bs : list TaxBracket) : Prop :=
  Forall (fun b => isFinite (min b)) bs /\
  ForallOrdPairs (fun a b => ~ minOf a == minOf b) bs.

(** The allocations that the boundary scenario expects. *)
Definition boundaryAllocations : list TaxCalculation :=
  [ mkTaxCalculation (mkTaxBracket (Num 0) (Some (Num 50000)) (Num 0.15))
      (Num 50000) (Num 7500);
    mkTaxCalculation (mkTaxBracket (Num 50000) (Some (Num 100000)) (Num 0.25))
      (Num 25000) (Num 6250) ].

(** Two bands that overlap: both start at 0 and are open-ended. *)
Definition overlappingBrackets : list TaxBracket :=
  [ mkTaxBracket (Num 0) None (Num 1); mkTaxBracket (Num 0) None (Num 1) ].

(** Two bands with the same [min]. *)
Definition tiedBrackets : list TaxBracket :=
  [ mkTaxBracket (Num 0) (Some (Num 10)) (Num 0.1);
    mkTaxBracket (Num 0) (Some (Num 20)) (Num 0.2) ].

(** ** The finite view *)

(** On finite inputs every number of the calculation is finite; these are
    the rationals behind them. *)
Definition toQ (x : number) : Q :=
  match x with Num q => q | _ => 0 end.

Definition amountQ (i : Q) (b : TaxBracket) : Q :=
  toQ (taxableInBand (Num i) b).

Definition rateQ (b : TaxBracket) : Q := toQ (rate b).

Definition taxQ (i : Q) (b : TaxBracket) : Q := amountQ i b * rateQ b.

Definition sumQ (f : TaxBracket -> Q) (l : list TaxBracket) : Q :=
  fold_right (fun b acc => f b + acc) 0 l.

Definition finiteBounds (b : TaxBracket) : Prop :=
  isFinite (min b) /\
  match max b with Some m => isFinite m | None => True end.




(** The order of the sorted array when the [min] values are finite and
    pairwise different. *)
Definition minBefore (a b : TaxBracket) : Prop := minOf a < minOf b.

(** * The component around the calculation *)

(** ** Messages and thrown values *)

(** The text of an error.  The source contains the text of its own messages;
    the message of a type error of the schema library and the message of
    a [TypeError] of the JavaScript engine are texts that it does not
    contain (both are non-empty). *)
Inductive Message : Type :=
  | Text (s : string)
  | SchemaTypeError
  | EngineTypeError.

(** What a [catch] block receives: an [Error] with its message, or another
    value. *)
Inductive Thrown : Type :=
  | ErrorObject (message : Message)
  | OtherValue.

(** JavaScript truthiness of a string and of an optional message. *)
Definition truthy (s : string) : bool := negb (String.eqb s "").

Definition truthyMessage (m : option Message) : bool :=
  match m with
  | None => false
  | Some (Text s) => truthy s
  | Some _ => true
  end.

(** ** The schemas *)

(** A number schema of the validation library: the tests that were chained
    onto [yup.number()], each with its message.  [validate] rejects [NaN]
    with the type error of the library and otherwise reports the first
    test that fails. *)
Definition Schema : Type := list ((number -> bool) * string).

Definition yup_number : Schema := [].

(** [.positive(message)]: the value is greater than 0. *)
Definition positive (message : string) (s : Schema) : Schema :=
  s ++ [((fun v => gt v (Num 0)), message)].

(** [.max(n, message)]: the value is at most [n]. *)
Definition yup_max (n : Q) (message : string) (s : Schema) : Schema :=
  s ++ [((fun v => le v (Num n)), message)].

(** [.min(n, message)]: the value is at least [n]. *)
Definition yup_min (n : Q) (message : string) (s : Schema) : Schema :=
  s ++ [((fun v => le (Num n) v), message)].

(** [.required(message)]: the value is neither [undefined] nor [null]; a
    number never is. *)
Definition required (message : string) (s : Schema) : Schema :=
  s ++ [((fun _ => true), message)].

Fixpoint firstFailure (s : Schema) (v : number) : option Message :=
  match s with
  | [] => None
  | (test, message) :: s' =>
      if test v then firstFailure s' v else Some (Text message)
  end.

(** [schema.validate(v)]: [None] when the promise resolves, the message of
    the [ValidationError] when it rejects. *)
Definition validate (s : Schema) (v : number) : option Message :=
  match v with
  | NaN => Some SchemaTypeError
  | _ => firstFailure s v
  end.

Definition salarySchema : Schema :=
  yup_max 10000000 "Salary cannot exceed 10M"
    (positive "Salary must be positive" yup_number).

Definition taxYearSchema : Schema :=
  yup_max 2022 "Tax year cannot exceed 2022"
    (yup_min 2019 "Tax year must be 2019 or later"
       (required "Tax year is required" yup_number)).

Definition TAXABLE_YEARS : list number :=
  [Num 2019; Num 2020; Num 2021; Num 2022].

(** ** The state of the component and its collaborators *)

(** ['salary' | 'taxYear'] *)
Inductive Field : Type := Salary | TaxYear.

Definition sameField (f g : Field) : bool :=
  match f, g with
  | Salary, Salary | TaxYear, TaxYear => true
  | _, _ => false
  end.

Record Toast : Type := mkToast {
  title : string;
  description : Message;
  status : string;
  duration : number;
  isClosable : bool
}.

(** The state hooks of the component ([totalTax] and [effectiveRate] sit in
    [memory], next to the heap), the toasts shown so far and the URLs
    requested from the API so far. *)
Record Component : Type := mkComponent {
  memory : State;
  salary : string;
  taxYear : string;
  loading : bool;
  calculations : list TaxCalculation;
  validationErrors : Field -> option Message;
  toasts : list Toast;
  requests : list string
}.

(** How a request to the API ends: with the brackets of the response, with
    an axios error (the message of the response body, if the body has one,
    and the error as a string), or with another thrown value. *)
Inductive ApiResult : Type :=
  | Resolves (tax_brackets : list TaxBracket)
  | RejectsAxios (responseMessage : option string) (asString : string)
  | Rejects (thrown : Thrown).

Definition setMemory (m : State) (c : Component) : Component :=
  mkComponent m (salary c) (taxYear c) (loading c) (calculations c)
    (validationErrors c) (toasts c) (requests c).

Definition setSalary (v : string) (c : Component) : Component :=
  mkComponent (memory c) v (taxYear c) (loading c) (calculations c)
    (validationErrors c) (toasts c) (requests c).

Definition setTaxYear (v : string) (c : Component) : Component :=
  mkComponent (memory c) (salary c) v (loading c) (calculations c)
    (validationErrors c) (toasts c) (requests c).

Definition setLoading (v : bool) (c : Component) : Component :=
  mkComponent (memory c) (salary c) (taxYear c) v (calculations c)
    (validationErrors c) (toasts c) (requests c).

Definition setCalculations (v : list TaxCalculation) (c : Component)
    : Component :=
  mkComponent (memory c) (salary c) (taxYear c) (loading c) v
    (validationErrors c) (toasts c) (requests c).

(** [setValidationErrors(prev => ({ ...prev, [field]: v }))] *)
Definition setValidationError (field : Field) (v : option Message)
    (c : Component) : Component :=
  mkComponent (memory c) (salary c) (taxYear c) (loading c) (calculations c)
    (fun f => if sameField f field then v else validationErrors c f)
    (toasts c) (requests c).

Definition toast (t : Toast) (c : Component) : Component :=
  mkComponent (memory c) (salary c) (taxYear c) (loading c) (calculations c)
    (validationErrors c) (toasts c ++ [t]) (requests c).

Definition request (url : string) (c : Component) : Component :=
  mkComponent (memory c) (salary c) (taxYear c) (loading c) (calculations c)
    (validationErrors c) (toasts c) (requests c ++ [url]).

(** The array of a response enters the heap at a new location. *)
Definition receive (bs : list TaxBracket) (s : State) : loc * State :=
  let l := fresh (dom (heap s)) in
  (l, mkState (<[l := bs]> (heap s)) (totalTax s) (effectiveRate s)).

(** [calculations.length > 0 && ...]: the table of results is rendered. *)
Definition resultsShown (c : Component) : bool :=
  match calculations c with [] => false | _ => true end.

(** [Boolean(validationErrors.salary || validationErrors.taxYear ||
    !salary || !taxYear)] *)
Definition isSubmitDisabled (c : Component) : bool :=
  truthyMessage (validationErrors c Salary) ||
  truthyMessage (validationErrors c TaxYear) ||
  negb (truthy (salary c)) || negb (truthy (taxYear c)).

(** [err instanceof Error ? err.message : 'An error occurred'] *)
Definition errorMessage (err : Thrown) : Message :=
  match err with
  | ErrorObject m => m
  | OtherValue => Text "An error occurred"
  end.

(** The [catch] block of [fetchTaxBrackets]: an axios error is wrapped into
    [new Error(error.response?.data?.message || error)], another value is
    thrown on. *)
Definition rethrown (r : ApiResult) : Thrown :=
  match r with
  | RejectsAxios (Some m) e =>
      ErrorObject (Text (if truthy m then m else e))
  | RejectsAxios None e => ErrorObject (Text e)
  | Rejects t => t
  | Resolves _ => OtherValue
  end.

Section Collaborators.
(** [Number(value)] of the language and [api.get(url)] of the bracket
    provider. *)
Context (Number : string -> number) (api_get : string -> ApiResult).

Definition validateField (field : Field) (value : string) (c : Component)
    : bool * Component :=
  let schema :=
    match field with Salary => salarySchema | TaxYear => taxYearSchema end in
  match validate schema (Number value) with
  | None => (true, setValidationError field None c)
  | Some message => (false, setValidationError field (Some message) c)
  end.

Definition handleSalaryChange (value : string) (c : Component) : Component :=
  snd (validateField Salary value (setSalary value c)).

Definition handleTaxYearChange (value : string) (c : Component) : Component :=
  snd (validateField TaxYear value (setTaxYear value c)).

(** The location of the brackets, or what was thrown. *)
Definition fetchTaxBrackets (year : string) (c : Component)
    : (loc + Thrown) * Component :=
  let url := ("/tax-calculator/tax-year/" ++ year)%string in
  let c := request url c in
  match api_get url with
  | Resolves tax_brackets =>
      let '(l, m) := receive tax_brackets (memory c) in
      (inl l, setMemory m c)
  | r => (inr (rethrown r), c)
  end.

(** The [catch] and [finally] blocks of [handleSubmit]. *)
Definition submitFailed (err : Thrown) (c : Component) : Component :=
  setLoading false
    (toast (mkToast "Error" (errorMessage err) "error" (Num 5000) true) c).

Definition handleSubmit (c : Component) : Component :=
  let salary := salary c in
  let taxYear := taxYear c in
  let c := setCalculations [] c in
  let '(isSalaryValid, c) := validateField Salary salary c in
  let '(isTaxYearValid, c) := validateField TaxYear taxYear c in
  if negb isSalaryValid || negb isTaxYearValid then c
  else
    let c := setLoading true c in
    match fetchTaxBrackets taxYear c with
    | (inl brackets, c) =>
        match calculateTaxes (Number salary) brackets (memory c) with
        | Some (results, m) =>
            setLoading false (setCalculations results (setMemory m c))
        | None => submitFailed (ErrorObject EngineTypeError) c
        end
    | (inr err, c) => submitFailed err c
    end.

End Collaborators.

(** The component as it is mounted. *)
Definition mounted : Component :=
  mkComponent (mkState ∅ (Num 0) (Num 0)) "" "2022" false []
    (fun _ => None) [] [].

(** A conversion and a provider for examples: the provider of the
    component's tests, which answers with [mockTaxBrackets]. *)
Definition sampleNumber (value : string) : number :=
  if String.eqb value "75000" then Num 75000
  else if String.eqb value "2022" then Num 2022
  else if String.eqb value "-1000" then Num (-1000)
  else if String.eqb value "" then Num 0
  else NaN.

Definition sampleApi (url : string) : ApiResult :=
  Resolves mockTaxBrackets.

Definition failingApi (url : string) : ApiResult :=
  Rejects (ErrorObject (Text "API Error")).

(** ** Whole numbers *)

(** A whole number between 0 and 2^53.  Sums and differences of such
    numbers that stay in this range are exact in binary64 as well. *)
Definition wholeNumber (x : number) : Prop :=
  exists z : Z, (0 <= z <= 2 ^ 53)%Z /\ sameValue x (Num (inject_Z z)).



(** * The calculation on binary64 numbers *)

(** The arithmetic of [number] is exact.  [Binary64] is [calculateTaxes]
    over the binary64 numbers of JavaScript, the primitive floats, whose
    operations round to nearest (ties to even) and overflow to an infinity.
    It evaluates the calculation bit for bit on a concrete input.  It
    returns the allocations together with the two values that
    [calculateTaxes] stores; the copy of the array and its sort in place
    are a sorted copy here. *)
Module Binary64.

Definition number : Type := float.

(** [x > y] *)
Definition gt (x y : number) : bool := PrimFloat.ltb y x.

(** [Math.max(x, y)] and [Math.min(x, y)]: [NaN] if an operand is [NaN],
    and [+0] counts as larger than [-0]. *)
Definition Math_max (x y : number) : number :=
  if PrimFloat.is_nan x || PrimFloat.is_nan y then PrimFloat.nan
  else if PrimFloat.ltb x y then y
  else if PrimFloat.ltb y x then x
  else if PrimFloat.get_sign x then y else x.

Definition Math_min (x y : number) : number :=
  if PrimFloat.is_nan x || PrimFloat.is_nan y then PrimFloat.nan
  else if PrimFloat.ltb x y then x
  else if PrimFloat.ltb y x then y
  else if PrimFloat.get_sign x then x else y.

Record TaxBracket : Type := mkTaxBracket {
  min : number;
  max : option number;
  rate : number
}.

Record TaxCalculation : Type := mkTaxCalculation {
  bracket : TaxBracket;
  taxableAmount : number;
  taxPaid : number
}.

(** The array that [calculateTaxes] returns and the values that it passes
    to [setTotalTax] and [setEffectiveRate]. *)
Record Result : Type := mkResult {
  calculations : list TaxCalculation;
  totalTax : number;
  effectiveRate : number
}.

Fixpoint insertSorted {A : Type} (comparefn : A -> A -> number)
    (x : A) (l : list A) : list A :=
  match l with
  | [] => [x]
  | y :: l' => if gt (comparefn x y) PrimFloat.zero
               then y :: insertSorted comparefn x l'
               else x :: y :: l'
  end.

Fixpoint sorted {A : Type} (comparefn : A -> A -> number) (l : list A)
    : list A :=
  match l with
  | [] => []
  | x :: l' => insertSorted comparefn x (sorted comparefn l')
  end.

(** [(a, b) => a.min - b.min] *)
Definition byMin (a b : TaxBracket) : number :=
  PrimFloat.sub (min a) (min b).

(** [Math.max(0, Math.min(income - min, max - min))] with
    [max = bracket.max ?? Infinity]. *)
Definition taxableInBand (income : number) (b : TaxBracket) : number :=
  let min := min b in
  let max := default PrimFloat.infinity (max b) in
  Math_max PrimFloat.zero
    (Math_min (PrimFloat.sub income min) (PrimFloat.sub max min)).

Definition forEachBody (income : number)
    (acc : list TaxCalculation * number) (b : TaxBracket)
    : list TaxCalculation * number :=
  let '(calculations, totalTaxPaid) := acc in
  let taxableInBand := taxableInBand income b in
  if gt taxableInBand PrimFloat.zero then
    let taxPaid := PrimFloat.mul taxableInBand (rate b) in
    (calculations ++ [mkTaxCalculation b taxableInBand taxPaid],
     PrimFloat.add totalTaxPaid taxPaid)
  else acc.

Definition calculateTaxes (income : number) (brackets : list TaxBracket)
    : Result :=
  let sortedBrackets := sorted byMin brackets in
  let '(calculations, totalTaxPaid) :=
    fold_left (forEachBody income) sortedBrackets ([], PrimFloat.zero) in
  let effectiveRateValue :=
    PrimFloat.mul (PrimFloat.div totalTaxPaid income) 100%float in
  mkResult calculations totalTaxPaid effectiveRateValue.

(** The sum of [taxableAmount] over a sequence of allocations. *)
Definition sumTaxable (cs : list TaxCalculation) : number :=
  fold_left PrimFloat.add (map taxableAmount cs) PrimFloat.zero.


(** The same bands, both with rate 1. *)
Definition fullyTaxedBrackets : list TaxBracket :=
  [ mkTaxBracket 0%float (Some 0.3%float) 1%float;
    mkTaxBracket 0.3%float None 1%float ].


End Binary64.

(** * Properties *)

(** ** The run of [calculateTaxes] *)

Lemma forEach_loop income l cs t :
  fold_left (forEachBody income) l (cs, t) =
  (cs ++ map (allocation income) (List.filter (emitted income) l),
   fold_left add
     (map taxPaid (map (allocation income) (List.filter (emitted income) l))) t).
Proof.
  revert cs t. induction l as [|b l IH]; intros cs t; simpl.
  - now rewrite app_nil_r.
  - assert (Hb : emitted income b = gt (taxableInBand income b) (Num 0))
      by reflexivity.
    destruct (gt (taxableInBand income b) (Num 0)) eqn:E;
      rewrite Hb, IH; simpl.
    + now rewrite <- app_assoc.
    + reflexivity.
Qed.

Lemma calculateTaxes_run income l s bs :
  heap s !! l = Some bs ->
  calculateTaxes income l s = Some (allocations income bs, stateAfter income bs s).
Proof.
  intros Hl.
  unfold calculateTaxes, spread, Array_sort, bind, readArray, writeArray.
  rewrite Hl. simpl. rewrite lookup_insert_eq. simpl. rewrite lookup_insert_eq.
  rewrite forEach_loop. simpl.
  unfold setTotalTax, setEffectiveRate, ret, stateAfter, total, allocations.
  simpl. now rewrite insert_insert_eq.
Qed.

Lemma fresh_location_free (s : State) : heap s !! fresh (dom (heap s)) = None.
Proof. apply not_elem_of_dom, is_fresh. Qed.

(** ** Reasoning on numbers *)

Lemma gt_Num a b : gt (Num a) (Num b) = true <-> b < a.
Proof.
  simpl. rewrite negb_true_iff, <- not_true_iff_false, Qle_bool_iff.
  split; [apply Qnot_le_lt | apply Qlt_not_le].
Qed.

Lemma gt_Num_false a b : gt (Num a) (Num b) = false <-> a <= b.
Proof. simpl. now rewrite negb_false_iff, Qle_bool_iff. Qed.

Lemma le_Num a b : le (Num a) (Num b) = true <-> a <= b.
Proof. apply Qle_bool_iff. Qed.

(** Case analysis on the [Qmax] and [Qmin] of the context, closed by linear
    arithmetic. *)
Ltac minmax_with spec a b op :=
  let x := fresh "m" in
  let Hx := fresh in
  pose proof (spec a b) as Hx;
  set (x := op a b) in *; clearbody x;
  destruct Hx as [[? ?]|[? ?]].

Ltac minmax :=
  repeat match goal with
  | |- context [Qmax ?a ?b] => minmax_with Q.max_spec a b Qmax
  | |- context [Qmin ?a ?b] => minmax_with Q.min_spec a b Qmin
  | _ : context [Qmax ?a ?b] |- _ => minmax_with Q.max_spec a b Qmax
  | _ : context [Qmin ?a ?b] |- _ => minmax_with Q.min_spec a b Qmin
  end.

(** Turns the comparisons of finite numbers into (in)equalities of
    rationals. *)
Ltac finite_tests :=
  repeat match goal with
  | H : negb (Qle_bool ?a ?b) = _ |- _ =>
      change (negb (Qle_bool a b)) with (gt (Num a) (Num b)) in H
  | H : Qle_bool ?a ?b = _ |- _ =>
      change (Qle_bool a b) with (le (Num a) (Num b)) in H
  | |- negb (Qle_bool ?a ?b) = _ =>
      change (negb (Qle_bool a b)) with (gt (Num a) (Num b))
  | |- Qle_bool ?a ?b = _ =>
      change (Qle_bool a b) with (le (Num a) (Num b))
  | H : gt (Num _) (Num _) = true |- _ => apply gt_Num in H
  | H : gt (Num _) (Num _) = false |- _ => apply gt_Num_false in H
  | H : le (Num _) (Num _) = true |- _ => apply le_Num in H
  | |- gt (Num _) (Num _) = true => apply gt_Num
  | |- gt (Num _) (Num _) = false => apply gt_Num_false
  | |- le (Num _) (Num _) = true => apply le_Num
  end.

(** ** The sort rearranges, and nothing else *)

Lemma insertSorted_Permutation {A} (cmp : A -> A -> number) x l :
  Permutation (insertSorted cmp x l) (x :: l).
Proof.
  induction l as [|y l IH]; simpl.
  - reflexivity.
  - destruct (gt (cmp x y) (Num 0)).
    + rewrite IH. apply perm_swap.
    + reflexivity.
Qed.

Lemma sorted_Permutation {A} (cmp : A -> A -> number) l :
  Permutation (sorted cmp l) l.
Proof.
  induction l as [|x l IH]; simpl.
  - reflexivity.
  - rewrite insertSorted_Permutation. now constructor.
Qed.

Lemma In_sorted {A} (cmp : A -> A -> number) l x :
  In x (sorted cmp l) <-> In x l.
Proof.
  split; apply Permutation_in;
    [apply sorted_Permutation | symmetry; apply sorted_Permutation].
Qed.

Lemma In_allocations income bs c :
  In c (allocations income bs) <->
  exists b, In b bs /\ emitted income b = true /\ c = allocation income b.
Proof.
  unfold allocations. rewrite in_map_iff. split.
  - intros (b & <- & Hb). apply filter_In in Hb as [Hb He].
    exists b. rewrite In_sorted in Hb. auto.
  - intros (b & Hb & He & ->). exists b. split; [reflexivity|].
    apply filter_In. rewrite In_sorted. auto.
Qed.

Lemma In_bracket_allocations income bs b :
  In b (map bracket (allocations income bs)) <->
  In b bs /\ emitted income b = true.
Proof.
  rewrite in_map_iff. split.
  - intros (c & <- & Hc). apply In_allocations in Hc as (b' & Hb & He & ->).
    simpl. auto.
  - intros [Hb He]. exists (allocation income b). split; [reflexivity|].
    apply In_allocations. eauto.
Qed.

(** ** The clamp *)

(** A band that starts above the income is not emitted. *)
Lemma emitted_above income b :
  gt (min b) income = true -> emitted income b = false.
Proof.
  unfold emitted, taxableInBand. destruct b as [mn [mx|] r]; simpl.
  - destruct mn, income, mx; simpl; try discriminate; try reflexivity;
      intros; finite_tests; minmax; lra.
  - destruct mn, income; simpl; try discriminate; try reflexivity;
      intros; finite_tests; minmax; lra.
Qed.

(** A band whose upper bound is below its lower bound is not emitted. *)
Lemma emitted_degenerate income b m :
  max b = Some m -> gt (min b) m = true -> emitted income b = false.
Proof.
  unfold emitted, taxableInBand. destruct b as [mn mx r]; simpl.
  intros ->. simpl.
  destruct mn, income, m; simpl; try discriminate; try reflexivity;
    intros; finite_tests; minmax; lra.
Qed.

Lemma taxable_degenerate income b m :
  max b = Some m -> gt (min b) m = true -> isFinite income ->
  sameValue (taxableInBand income b) (Num 0).
Proof.
  unfold taxableInBand. destruct b as [mn mx r]; simpl.
  intros ->. simpl.
  destruct mn, income, m; simpl; try discriminate; try tauto;
    intros; finite_tests; minmax; lra.
Qed.

(** A band that starts exactly at the income is not emitted. *)
Lemma emitted_at_income income b :
  sameValue (min b) income -> emitted income b = false.
Proof.
  unfold emitted, taxableInBand. destruct b as [mn [mx|] r]; simpl.
  - destruct mn, income, mx; simpl; try tauto; try reflexivity;
      intros; finite_tests; minmax; lra.
  - destruct mn, income; simpl; try tauto; try reflexivity;
      intros; finite_tests; minmax; lra.
Qed.

Lemma taxable_at_income income b :
  sameValue (min b) income -> isFinite income -> max b <> Some NaN ->
  sameValue (taxableInBand income b) (Num 0).
Proof.
  unfold taxableInBand. destruct b as [mn [mx|] r]; simpl.
  - destruct mn, income, mx; simpl; try tauto; try congruence;
      intros; finite_tests; minmax; lra.
  - destruct mn, income; simpl; try tauto;
      intros; finite_tests; minmax; lra.
Qed.

(** What is emitted is positive and no more than the width of the band. *)
Lemma emitted_within_band income b :
  emitted income b = true ->
  le (taxableInBand income b) (sub (default Infinity (max b)) (min b)) = true.
Proof.
  unfold emitted, taxableInBand. destruct b as [mn [mx|] r]; simpl.
  - destruct mn, income, mx; simpl; try discriminate; try reflexivity;
      intros; finite_tests; minmax; lra.
  - destruct mn, income; simpl; try discriminate; try reflexivity;
      intros; finite_tests; minmax; lra.
Qed.

Lemma emitted_not_zero income b :
  emitted income b = true -> ~ sameValue (taxableInBand income b) (Num 0).
Proof.
  unfold emitted. destruct (taxableInBand income b); simpl;
    try discriminate; try tauto.
  intros H E. finite_tests. lra.
Qed.

(** * The claims on the simple paths *)

(** C8.  Empty brackets: for every income, the calculation on an empty
    brackets array returns an empty sequence of allocations and sets
    [totalTax] to 0. *)
Theorem empty_brackets income l s :
  heap s !! l = Some [] ->
  exists s', calculateTaxes income l s = Some ([], s') /\ totalTax s' = Num 0.
Proof.
  intros Hl. rewrite (calculateTaxes_run _ _ _ _ Hl).
  exists (stateAfter income [] s). split; reflexivity.
Qed.

Lemma empty_brackets_witness :
  heap (initialState []) !! 1%positive = Some [] /\
  exists s', calculateTaxes (Num 75000) 1%positive (initialState []) = Some ([], s')
             /\ totalTax s' = Num 0.
Proof.
  split; [reflexivity|].
  apply (empty_brackets (Num 75000) 1%positive (initialState [])).
  reflexivity.
Defined.

(** C9.  The brackets array passed to [calculateTaxes] is not mutated: the
    sort works on a copy, and after the call the caller's array (like every
    array that existed before the call) holds the same elements in the same
    order. *)
Theorem input_array_not_mutated income l s bs :
  heap s !! l = Some bs ->
  exists calcs s',
    calculateTaxes income l s = Some (calcs, s') /\
    heap s' !! l = Some bs /\
    forall l0, is_Some (heap s !! l0) -> heap s' !! l0 = heap s !! l0.
Proof.
  intros Hl. rewrite (calculateTaxes_run _ _ _ _ Hl).
  exists (allocations income bs), (stateAfter income bs s).
  assert (Hframe : forall l0, is_Some (heap s !! l0) ->
                     heap (stateAfter income bs s) !! l0 = heap s !! l0).
  { intros l0 [x Hx]. simpl. apply lookup_insert_ne.
    intros <-. rewrite fresh_location_free in Hx. discriminate. }
  split; [reflexivity|]. split; [|exact Hframe].
  rewrite Hframe; [exact Hl | rewrite Hl; eauto].
Qed.

Lemma input_array_not_mutated_witness :
  let unsortedBrackets := rev mockTaxBrackets in
  heap (initialState unsortedBrackets) !! 1%positive = Some unsortedBrackets /\
  exists calcs s',
    calculateTaxes (Num 75000) 1%positive (initialState unsortedBrackets)
      = Some (calcs, s') /\
    heap s' !! 1%positive = Some unsortedBrackets /\
    forall l0, is_Some (heap (initialState unsortedBrackets) !! l0) ->
               heap s' !! l0 = heap (initialState unsortedBrackets) !! l0.
Proof.
  intros unsortedBrackets. split; [reflexivity|].
  apply (input_array_not_mutated (Num 75000) 1%positive
           (initialState unsortedBrackets) unsortedBrackets).
  reflexivity.
Defined.

(** C6.  Zero-contribution omission: the emitted allocations are those of
    the brackets of the sorted array whose clamped taxable amount is
    strictly positive, so that a bracket is emitted if and only if it is in
    the array and its clamped amount is strictly positive; a bracket whose
    [min] is greater than the income never appears; no emitted allocation
    has a zero [taxableAmount]. *)
Theorem zero_contribution_omitted income l s bs :
  heap s !! l = Some bs ->
  exists calcs s',
    calculateTaxes income l s = Some (calcs, s') /\
    map bracket calcs =
      List.filter (fun b => gt (taxableInBand income b) (Num 0))
        (sorted byMin bs) /\
    (forall b, In b (map bracket calcs) <->
               In b bs /\ gt (taxableInBand income b) (Num 0) = true) /\
    (forall b, In b bs -> gt (min b) income = true ->
               ~ In b (map bracket calcs)) /\
    (forall c, In c calcs -> ~ sameValue (taxableAmount c) (Num 0)).
Proof.
  intros Hl. rewrite (calculateTaxes_run _ _ _ _ Hl).
  exists (allocations income bs), (stateAfter income bs s).
  split; [reflexivity|]. split; [|split; [|split]].
  - unfold allocations. rewrite map_map. apply map_id.
  - intros b. apply In_bracket_allocations.
  - intros b _ Hgt Hin. apply In_bracket_allocations in Hin as [_ He].
    rewrite (emitted_above _ _ Hgt) in He. discriminate.
  - intros c Hc. apply In_allocations in Hc as (b & _ & He & ->).
    simpl. now apply emitted_not_zero.
Qed.

Lemma zero_contribution_omitted_witness :
  heap (initialState mockTaxBrackets) !! 1%positive = Some mockTaxBrackets /\
  exists calcs s',
    calculateTaxes (Num 75000) 1%positive (initialState mockTaxBrackets)
      = Some (calcs, s') /\
    map bracket calcs =
      List.filter (fun b => gt (taxableInBand (Num 75000) b) (Num 0))
        (sorted byMin mockTaxBrackets) /\
    (forall b, In b (map bracket calcs) <->
               In b mockTaxBrackets /\
               gt (taxableInBand (Num 75000) b) (Num 0) = true) /\
    (forall b, In b mockTaxBrackets -> gt (min b) (Num 75000) = true ->
               ~ In b (map bracket calcs)) /\
    (forall c, In c calcs -> ~ sameValue (taxableAmount c) (Num 0)).
Proof.
  split; [reflexivity|].
  apply (zero_contribution_omitted (Num 75000) 1%positive
           (initialState mockTaxBrackets) mockTaxBrackets).
  reflexivity.
Defined.

(** C7.  Degenerate-input tolerance: whatever array of brackets the
    location holds (empty, unsorted, with bands whose [max] is below their
    [min]), the calculation returns; a band whose [max] is below its [min]
    is not among the emitted allocations, and for a finite income its
    clamped amount is zero. *)
Theorem degenerate_input_tolerated income l s bs :
  heap s !! l = Some bs ->
  exists calcs s',
    calculateTaxes income l s = Some (calcs, s') /\
    forall b m, In b bs -> max b = Some m -> gt (min b) m = true ->
      ~ In b (map bracket calcs) /\
      (isFinite income -> sameValue (taxableInBand income b) (Num 0)).
Proof.
  intros Hl. rewrite (calculateTaxes_run _ _ _ _ Hl).
  exists (allocations income bs), (stateAfter income bs s).
  split; [reflexivity|]. intros b m _ Hm Hgt. split.
  - intros Hin. apply In_bracket_allocations in Hin as [_ He].
    rewrite (emitted_degenerate _ _ _ Hm Hgt) in He. discriminate.
  - now apply taxable_degenerate with m.
Qed.

(** An unsorted array with a band whose [max] is below its [min]. *)
Lemma degenerate_input_tolerated_witness :
  let degenerate := mkTaxBracket (Num 60000) (Some (Num 20000)) (Num 0.5) in
  let bs := degenerate :: rev mockTaxBrackets in
  heap (initialState bs) !! 1%positive = Some bs /\
  exists calcs s',
    calculateTaxes (Num 75000) 1%positive (initialState bs) = Some (calcs, s') /\
    forall b m, In b bs -> max b = Some m -> gt (min b) m = true ->
      ~ In b (map bracket calcs) /\
      (isFinite (Num 75000) -> sameValue (taxableInBand (Num 75000) b) (Num 0)).
Proof.
  intros degenerate bs. split; [reflexivity|].
  apply (degenerate_input_tolerated (Num 75000) 1%positive (initialState bs) bs).
  reflexivity.
Defined.

(** C10.  Every emitted allocation has
    [0 < taxableAmount <= upperEdge - min], with [upperEdge] the [max] of
    its bracket or [Infinity], and [taxPaid = taxableAmount * rate]; a
    bracket whose [min] equals the income is not emitted, and its clamped
    amount is zero (for a finite income and a [max] that is a number). *)
Theorem allocation_within_band income l s bs :
  heap s !! l = Some bs ->
  exists calcs s',
    calculateTaxes income l s = Some (calcs, s') /\
    (forall c, In c calcs ->
       gt (taxableAmount c) (Num 0) = true /\
       le (taxableAmount c)
          (sub (default Infinity (max (bracket c))) (min (bracket c))) = true /\
       taxPaid c = mul (taxableAmount c) (rate (bracket c))) /\
    (forall b, In b bs -> sameValue (min b) income ->
       ~ In b (map bracket calcs) /\
       (isFinite income -> max b <> Some NaN ->
        sameValue (taxableInBand income b) (Num 0))).
Proof.
  intros Hl. rewrite (calculateTaxes_run _ _ _ _ Hl).
  exists (allocations income bs), (stateAfter income bs s).
  split; [reflexivity|]. split.
  - intros c Hc. apply In_allocations in Hc as (b & _ & He & ->). simpl.
    split; [exact He|]. split; [|reflexivity].
    now apply emitted_within_band.
  - intros b _ Hmin. split.
    + intros Hin. apply In_bracket_allocations in Hin as [_ He].
      rewrite (emitted_at_income _ _ Hmin) in He. discriminate.
    + now apply taxable_at_income.
Qed.

Lemma allocation_within_band_witness :
  heap (initialState mockTaxBrackets) !! 1%positive = Some mockTaxBrackets /\
  exists calcs s',
    calculateTaxes (Num 50000) 1%positive (initialState mockTaxBrackets)
      = Some (calcs, s') /\
    (forall c, In c calcs ->
       gt (taxableAmount c) (Num 0) = true /\
       le (taxableAmount c)
          (sub (default Infinity (max (bracket c))) (min (bracket c))) = true /\
       taxPaid c = mul (taxableAmount c) (rate (bracket c))) /\
    (forall b, In b mockTaxBrackets -> sameValue (min b) (Num 50000) ->
       ~ In b (map bracket calcs) /\
       (isFinite (Num 50000) -> max b <> Some NaN ->
        sameValue (taxableInBand (Num 50000) b) (Num 0))).
Proof.
  split; [reflexivity|].
  apply (allocation_within_band (Num 50000) 1%positive
           (initialState mockTaxBrackets) mockTaxBrackets).
  reflexivity.
Defined.

(** * The boundary scenario and the effective rate *)

Lemma boundary_run l s :
  heap s !! l = Some mockTaxBrackets ->
  calculateTaxes (Num 75000) l s =
  Some (allocations (Num 75000) mockTaxBrackets,
        stateAfter (Num 75000) mockTaxBrackets s).
Proof. apply calculateTaxes_run. Qed.

(** C1, as stated, fails: at income 75,000 on the three brackets of the
    scenario, the effective rate that the calculation stores is not
    13750 / 75000. *)
Lemma scenario_rate_is_not_the_ratio :
  ~ exists calcs s',
      calculateTaxes (Num 75000) 1%positive (initialState mockTaxBrackets)
        = Some (calcs, s') /\
      Forall2 sameCalculation calcs boundaryAllocations /\
      sameValue (totalTax s') (Num 13750) /\
      sameValue (effectiveRate s') (Num (13750 / 75000)).
Proof.
  intros (calcs & s' & Hrun & _ & _ & Hrate).
  rewrite boundary_run in Hrun by reflexivity.
  injection Hrun as _ <-. vm_compute in Hrate. discriminate.
Qed.

(** C1, amended.  For income 75,000 and the three brackets of the scenario,
    [calculateTaxes] returns exactly two allocations: 50000 taxed 7500 in
    the first bracket and 25000 taxed 6250 in the second.  It stores
    [totalTax] = 13750 and [effectiveRate] = 13750 / 75000 * 100, a
    percentage (about 18.333). *)
Theorem boundary_scenario l s :
  heap s !! l = Some mockTaxBrackets ->
  exists calcs s',
    calculateTaxes (Num 75000) l s = Some (calcs, s') /\
    Forall2 sameCalculation calcs boundaryAllocations /\
    sameValue (totalTax s') (Num 13750) /\
    sameValue (effectiveRate s') (Num (13750 / 75000 * 100)) /\
    le (Num 18.333) (effectiveRate s') = true /\
    le (effectiveRate s') (Num 18.334) = true.
Proof.
  intros Hl. rewrite (boundary_run _ _ Hl).
  exists (allocations (Num 75000) mockTaxBrackets),
         (stateAfter (Num 75000) mockTaxBrackets s).
  split; [reflexivity|]. split.
  - vm_compute. repeat constructor.
  - unfold stateAfter; simpl. vm_compute. repeat split; reflexivity.
Qed.

Lemma boundary_scenario_witness :
  heap (initialState mockTaxBrackets) !! 1%positive = Some mockTaxBrackets /\
  exists calcs s',
    calculateTaxes (Num 75000) 1%positive (initialState mockTaxBrackets)
      = Some (calcs, s') /\
    Forall2 sameCalculation calcs boundaryAllocations /\
    sameValue (totalTax s') (Num 13750) /\
    sameValue (effectiveRate s') (Num (13750 / 75000 * 100)) /\
    le (Num 18.333) (effectiveRate s') = true /\
    le (effectiveRate s') (Num 18.334) = true.
Proof.
  split; [reflexivity|].
  apply (boundary_scenario 1%positive (initialState mockTaxBrackets)).
  reflexivity.
Defined.

(** C2, as stated, fails.  On the brackets of the scenario (rates within
    [0, 1]) and income 75,000 the stored effective rate is not
    [totalTax / income] and is above 1; and on two overlapping bands with
    rate 1 even the ratio [totalTax / income] is above 1. *)
Lemma effective_rate_is_not_a_ratio :
  (exists calcs s',
     calculateTaxes (Num 75000) 1%positive (initialState mockTaxBrackets)
       = Some (calcs, s') /\
     ~ sameValue (effectiveRate s') (div (totalTax s') (Num 75000)) /\
     le (effectiveRate s') (Num 1) = false) /\
  (exists calcs s',
     calculateTaxes (Num 100) 1%positive (initialState overlappingBrackets)
       = Some (calcs, s') /\
     le (div (totalTax s') (Num 100)) (Num 1) = false).
Proof.
  split.
  - eexists _, _. split; [apply calculateTaxes_run; reflexivity|].
    split; [vm_compute; discriminate | vm_compute; reflexivity].
  - eexists _, _. split; [apply calculateTaxes_run; reflexivity|].
    vm_compute; reflexivity.
Qed.

(** * Finite inputs *)

(** ** Amounts and taxes of one band *)

Lemma amount_finite i b :
  finiteBounds b -> taxableInBand (Num i) b = Num (amountQ i b).
Proof.
  unfold amountQ, taxableInBand, finiteBounds.
  destruct b as [mn [mx|] r]; simpl.
  - destruct mn, mx; simpl; tauto.
  - destruct mn; simpl; tauto.
Qed.

Lemma amountQ_nonneg i b : 0 <= amountQ i b.
Proof.
  unfold amountQ, taxableInBand. destruct b as [mn [mx|] r]; simpl.
  - destruct mn, mx; simpl; try lra; minmax; lra.
  - destruct mn; simpl; try lra; minmax; lra.
Qed.


Lemma emitted_finite i b :
  finiteBounds b -> emitted (Num i) b = true <-> 0 < amountQ i b.
Proof.
  intros Hb. unfold emitted. rewrite (amount_finite _ _ Hb). apply gt_Num.
Qed.

Lemma not_emitted_zero i b :
  finiteBounds b -> emitted (Num i) b = false -> amountQ i b == 0.
Proof.
  intros Hb. unfold emitted. rewrite (amount_finite _ _ Hb).
  intros H%gt_Num_false. pose proof (amountQ_nonneg i b). lra.
Qed.

Lemma tax_finite i b :
  finiteBounds b -> isFinite (rate b) ->
  taxPaid (allocation (Num i) b) = Num (taxQ i b).
Proof.
  intros Hb Hr. simpl. rewrite (amount_finite _ _ Hb).
  unfold taxQ, rateQ. destruct (rate b); simpl in *; tauto.
Qed.

(** ** Sums *)

Lemma fold_left_add_Num qs a :
  fold_left add (map Num qs) (Num a) = Num (fold_left Qplus qs a).
Proof. revert a. induction qs as [|q qs IH]; intros a; simpl; auto. Qed.


Lemma fold_left_Qplus qs a :
  fold_left Qplus qs a == a + fold_right Qplus 0 qs.
Proof.
  revert a. induction qs as [|q qs IH]; intros a; simpl.
  - lra.
  - rewrite IH. lra.
Qed.

Lemma fold_right_Qplus_map f l :
  fold_right Qplus 0 (map f l) = sumQ f l.
Proof. induction l as [|b l IH]; simpl; [|rewrite IH]; reflexivity. Qed.

Lemma sumQ_filter f (p : TaxBracket -> bool) l :
  (forall b, In b l -> p b = false -> f b == 0) ->
  sumQ f (List.filter p l) == sumQ f l.
Proof.
  induction l as [|b l IH]; intros H; simpl.
  - reflexivity.
  - assert (IH' : sumQ f (List.filter p l) == sumQ f l)
      by (apply IH; intros; apply H; simpl; auto).
    destruct (p b) eqn:E; simpl.
    + rewrite IH'. reflexivity.
    + rewrite IH', (H b); simpl; auto. lra.
Qed.


Lemma sumQ_nonneg f l :
  (forall b, In b l -> 0 <= f b) -> 0 <= sumQ f l.
Proof.
  induction l as [|b l IH]; intros H; simpl.
  - lra.
  - assert (0 <= f b) by (apply H; simpl; auto).
    assert (0 <= sumQ f l) by (apply IH; intros; apply H; simpl; auto).
    lra.
Qed.

(** ** The total and the sum of the taxable amounts *)

Lemma Forall_sorted {A} (P : A -> Prop) (cmp : A -> A -> number) l :
  Forall P l -> Forall P (sorted cmp l).
Proof.
  rewrite !List.Forall_forall. intros H x Hx. apply H. now apply In_sorted in Hx.
Qed.


Lemma total_finite i bs :
  Forall finiteBracket bs ->
  exists t, total (Num i) bs = Num t /\
            t == sumQ (taxQ i) (sorted byMin bs).
Proof.
  intros Hbs. apply (Forall_sorted _ byMin) in Hbs.
  unfold total, allocations. set (S := sorted byMin bs) in *.
  rewrite List.Forall_forall in Hbs.
  exists (fold_left Qplus (map (taxQ i) (List.filter (emitted (Num i)) S)) 0).
  split.
  - rewrite <- fold_left_add_Num. f_equal.
    rewrite !map_map. apply map_ext_in. intros b Hb%filter_In.
    destruct (Hbs b (proj1 Hb)) as (Hmin & Hrate & Hmax).
    apply tax_finite; [split|]; assumption.
  - rewrite fold_left_Qplus, fold_right_Qplus_map, sumQ_filter; [lra|].
    intros b Hb He. destruct (Hbs b Hb) as (Hmin & Hrate & Hmax).
    unfold taxQ. rewrite (not_emitted_zero i b); [lra | split; assumption | exact He].
Qed.

(** * Monotonicity *)


Lemma rate_nonneg b :
  isFinite (rate b) -> le (Num 0) (rate b) = true -> 0 <= rateQ b.
Proof.
  unfold rateQ. destruct (rate b); simpl; try tauto.
  intros _ H. now apply Qle_bool_iff.
Qed.




(** * Conservation *)



















Lemma whole_zero : wholeNumber (Num 0).
Proof. exists 0%Z. split; [lia | reflexivity]. Qed.





(** * The effective rate *)

(** On binary64 numbers the percentage can exceed 100 even for a valid
    bracket set with rates within [0, 1]: rounding alone does it. *)
Lemma rounding_can_exceed_100_percent :
  Binary64.effectiveRate
    (Binary64.calculateTaxes 0.9%float Binary64.fullyTaxedBrackets)
    = 100.00000000000003%float /\
  PrimFloat.leb
    (Binary64.effectiveRate
       (Binary64.calculateTaxes 0.9%float Binary64.fullyTaxedBrackets))
    100%float = false.
Proof. split; vm_compute; reflexivity. Qed.

Lemma percentage_nonneg t i : 0 < i -> 0 <= t -> 0 <= t / i * 100.
Proof.
  intros Hi Ht.
  assert (0 <= t / i) by (apply Qle_shift_div_l; [exact Hi | lra]).
  lra.
Qed.

(** C2, amended.  For every positive income and every bracket set, the
    effective rate that the calculation stores is [totalTax / income * 100]:
    a percentage, multiplied by 100 inside the calculation.  For brackets
    with finite bounds, a [min] of at least 0 and a finite rate of at least
    0, it is at least 0. *)
Theorem effective_rate_is_a_percentage i l s bs :
  0 < i ->
  heap s !! l = Some bs ->
  exists calcs s',
    calculateTaxes (Num i) l s = Some (calcs, s') /\
    effectiveRate s' = mul (div (totalTax s') (Num i)) (Num 100) /\
    (Forall finiteBracket bs ->
     Forall (fun b => le (Num 0) (min b) = true) bs ->
     Forall (fun b => le (Num 0) (rate b) = true) bs ->
     le (Num 0) (effectiveRate s') = true).
Proof.
  intros Hi Hl. rewrite (calculateTaxes_run _ _ _ _ Hl).
  exists (allocations (Num i) bs), (stateAfter (Num i) bs s).
  split; [reflexivity|]. split; [reflexivity|].
  intros Hfin _ Hrates. cbn [effectiveRate stateAfter].
  destruct (total_finite i bs Hfin) as (t & -> & Et).
  assert (Hlow : 0 <= t).
  { rewrite Et. apply sumQ_nonneg. intros b Hb%In_sorted.
    rewrite List.Forall_forall in Hfin, Hrates.
    destruct (Hfin b Hb) as (_ & Hr & _). unfold taxQ.
    apply Qmult_le_0_compat; [apply amountQ_nonneg|].
    apply rate_nonneg; auto. }
  assert (Hne : Qeq_bool i 0 = false).
  { apply not_true_iff_false. intros E%Qeq_bool_iff. lra. }
  assert (Hdiv : div (Num t) (Num i) = Num (t / i))
    by (unfold div; now rewrite Hne).
  rewrite Hdiv. apply le_Num. now apply percentage_nonneg.
Qed.

Lemma effective_rate_is_a_percentage_witness :
  0 < 75000 /\
  heap (initialState mockTaxBrackets) !! 1%positive = Some mockTaxBrackets /\
  exists calcs s',
    calculateTaxes (Num 75000) 1%positive (initialState mockTaxBrackets)
      = Some (calcs, s') /\
    effectiveRate s' = mul (div (totalTax s') (Num 75000)) (Num 100) /\
    (Forall finiteBracket mockTaxBrackets ->
     Forall (fun b => le (Num 0) (min b) = true) mockTaxBrackets ->
     Forall (fun b => le (Num 0) (rate b) = true) mockTaxBrackets ->
     le (Num 0) (effectiveRate s') = true).
Proof.
  assert (H1 : 0 < 75000) by reflexivity.
  split; [exact H1|]. split; [reflexivity|].
  apply (effective_rate_is_a_percentage 75000 1%positive
           (initialState mockTaxBrackets) mockTaxBrackets H1 eq_refl).
Defined.

(** * Independence of the order of the input *)

Lemma byMin_positive a b :
  isFinite (min a) -> isFinite (min b) ->
  gt (byMin a b) (Num 0) = true <-> minBefore b a.
Proof.
  unfold byMin, minBefore, minOf.
  destruct (min a), (min b); simpl; try tauto. intros _ _.
  rewrite negb_true_iff, <- not_true_iff_false, Qle_bool_iff.
  split; intros H; [apply Qnot_le_lt in H | apply Qlt_not_le]; lra.
Qed.

Lemma Forall_insertSorted {A} (P : A -> Prop) (cmp : A -> A -> number) x l :
  P x -> Forall P l -> Forall P (insertSorted cmp x l).
Proof.
  intros Hx Hl. apply List.Forall_forall. intros y Hy.
  apply (Permutation_in _ (insertSorted_Permutation cmp x l)) in Hy.
  destruct Hy as [<-|Hy]; [exact Hx|].
  rewrite List.Forall_forall in Hl. now apply Hl.
Qed.

(** On finite [min] values the sorted array is in ascending order of
    [min]. *)
Lemma insertSorted_ascending x l :
  isFinite (min x) ->
  Forall (fun y => isFinite (min y)) l ->
  StronglySorted (fun a b => minOf a <= minOf b) l ->
  StronglySorted (fun a b => minOf a <= minOf b) (insertSorted byMin x l).
Proof.
  intros Hx Hfin Hs.
  induction Hs as [|y l Hs IH Hy]; simpl.
  - repeat constructor.
  - inversion Hfin as [|? ? Hfy Hfl]; subst.
    destruct (gt (byMin x y) (Num 0)) eqn:E.
    + apply byMin_positive in E; [|assumption..]. unfold minBefore in E.
      constructor; [now apply IH|].
      apply Forall_insertSorted; [lra | exact Hy].
    + assert (Hxy : minOf x <= minOf y).
      { destruct (Qlt_le_dec (minOf y) (minOf x)) as [H|H]; [|exact H].
        apply (byMin_positive x y) in H; [|assumption..]. congruence. }
      constructor; [now constructor|].
      constructor; [exact Hxy|].
      eapply List.Forall_impl; [|exact Hy].
      intros z Hz. simpl in Hz. lra.
Qed.

Lemma sorted_ascending bs :
  Forall (fun b => isFinite (min b)) bs ->
  StronglySorted (fun a b => minOf a <= minOf b) (sorted byMin bs).
Proof.
  induction 1 as [|x l Hx Hl IH]; simpl; [constructor|].
  apply insertSorted_ascending; [exact Hx | now apply Forall_sorted | exact IH].
Qed.

Lemma insertSorted_StronglySorted x l :
  isFinite (min x) ->
  Forall (fun y => isFinite (min y)) l ->
  Forall (fun y => ~ minOf x == minOf y) l ->
  StronglySorted minBefore l ->
  StronglySorted minBefore (insertSorted byMin x l).
Proof.
  intros Hx Hfin Hne Hs.
  induction Hs as [|y l Hs IH Hy]; simpl.
  - repeat constructor.
  - inversion Hfin as [|? ? Hfy Hfl]; subst.
    inversion Hne as [|? ? Hny Hnl]; subst.
    destruct (gt (byMin x y) (Num 0)) eqn:E.
    + apply byMin_positive in E; [|assumption..].
      constructor; [now apply IH|].
      now apply Forall_insertSorted.
    + assert (Hxy : minBefore x y).
      { unfold minBefore.
        destruct (Qlt_le_dec (minOf x) (minOf y)) as [H|H]; [exact H|].
        assert (Hyx : minBefore y x) by (unfold minBefore; lra).
        apply byMin_positive in Hyx; [|assumption..]. congruence. }
      constructor; [now constructor|].
      constructor; [exact Hxy|].
      eapply List.Forall_impl; [|exact Hy]. unfold minBefore in *.
      intros z Hz. simpl in Hz. lra.
Qed.

Lemma sorted_StronglySorted bs :
  distinctMins bs -> StronglySorted minBefore (sorted byMin bs).
Proof.
  intros [Hfin Hne].
  induction Hne as [|x l Hx Hl IH]; simpl; [constructor|].
  inversion Hfin as [|? ? Hfx Hfl]; subst.
  apply insertSorted_StronglySorted.
  - exact Hfx.
  - now apply Forall_sorted.
  - now apply Forall_sorted.
  - now apply IH.
Qed.

Lemma distinctMins_Permutation l l' :
  Permutation l l' -> distinctMins l -> distinctMins l'.
Proof.
  intros HP [Hfin Hne]. split.
  - rewrite List.Forall_forall in *. intros b Hb. apply Hfin.
    now apply (Permutation_in _ (Permutation_sym HP)).
  - clear Hfin.
    induction HP as [|a l l' HP IH|a b l|l l' l'' _ IH1 _ IH2].
    + constructor.
    + inversion Hne as [|? ? Ha Hl]; subst.
      constructor; [|now apply IH].
      rewrite List.Forall_forall in *. intros b Hb. apply Ha.
      now apply (Permutation_in _ (Permutation_sym HP)).
    + inversion Hne as [|? ? Hb Hl]; subst.
      inversion Hb as [|? ? Hba Hbl]; subst.
      inversion Hl as [|? ? Ha Hl']; subst.
      constructor; [|now constructor].
      constructor; [|exact Ha].
      intros E. apply Hba. now symmetry.
    + auto.
Qed.

Lemma sorted_order_independent bs1 bs2 :
  Permutation bs1 bs2 -> distinctMins bs1 ->
  sorted byMin bs1 = sorted byMin bs2.
Proof.
  intros HP Hd.
  apply (StronglySorted_unique_strong minBefore).
  - unfold minBefore. intros x1 x2 _ _ H1 H2. lra.
  - now apply sorted_StronglySorted.
  - apply sorted_StronglySorted. now apply distinctMins_Permutation with bs1.
  - rewrite !sorted_Permutation. exact HP.
Qed.

(** C5, as stated, fails when two brackets have the same [min]: the sort
    keeps them in the order of the input, and the permuted array yields the
    allocations in another order. *)
Lemma tied_brackets_depend_on_order :
  Permutation tiedBrackets (rev tiedBrackets) /\
  exists calcs1 s1 calcs2 s2,
    calculateTaxes (Num 15) 1%positive (initialState tiedBrackets)
      = Some (calcs1, s1) /\
    calculateTaxes (Num 15) 1%positive (initialState (rev tiedBrackets))
      = Some (calcs2, s2) /\
    map bracket calcs1 = tiedBrackets /\
    map bracket calcs2 = rev tiedBrackets /\
    calcs1 <> calcs2.
Proof.
  split; [apply Permutation_rev|].
  eexists _, _, _, _.
  split; [apply calculateTaxes_run; reflexivity|].
  split; [apply calculateTaxes_run; reflexivity|].
  split; [reflexivity|]. split; [reflexivity|].
  vm_compute. discriminate.
Qed.

(** C5, amended.  For every income and every list of brackets whose [min]
    values are finite and pairwise different, the calculation on any
    permutation of the array returns the same sequence of allocations and
    stores the same [totalTax] and [effectiveRate]. *)
Theorem order_independent income l1 s1 bs1 l2 s2 bs2 :
  Permutation bs1 bs2 ->
  distinctMins bs1 ->
  heap s1 !! l1 = Some bs1 ->
  heap s2 !! l2 = Some bs2 ->
  exists calcs s1' s2',
    calculateTaxes income l1 s1 = Some (calcs, s1') /\
    calculateTaxes income l2 s2 = Some (calcs, s2') /\
    totalTax s1' = totalTax s2' /\
    effectiveRate s1' = effectiveRate s2'.
Proof.
  intros HP Hd H1 H2.
  rewrite (calculateTaxes_run _ _ _ _ H1), (calculateTaxes_run _ _ _ _ H2).
  assert (Ha : allocations income bs1 = allocations income bs2)
    by (unfold allocations; now rewrite (sorted_order_independent _ _ HP Hd)).
  assert (Ht : total income bs1 = total income bs2)
    by (unfold total; now rewrite Ha).
  exists (allocations income bs1),
         (stateAfter income bs1 s1), (stateAfter income bs2 s2).
  split; [reflexivity|]. split; [now rewrite Ha|].
  simpl. now rewrite Ht.
Qed.

Lemma order_independent_witness :
  Permutation mockTaxBrackets (rev mockTaxBrackets) /\
  distinctMins mockTaxBrackets /\
  heap (initialState mockTaxBrackets) !! 1%positive = Some mockTaxBrackets /\
  heap (initialState (rev mockTaxBrackets)) !! 1%positive
    = Some (rev mockTaxBrackets) /\
  exists calcs s1' s2',
    calculateTaxes (Num 75000) 1%positive (initialState mockTaxBrackets)
      = Some (calcs, s1') /\
    calculateTaxes (Num 75000) 1%positive (initialState (rev mockTaxBrackets))
      = Some (calcs, s2') /\
    totalTax s1' = totalTax s2' /\
    effectiveRate s1' = effectiveRate s2'.
Proof.
  assert (H1 : Permutation mockTaxBrackets (rev mockTaxBrackets))
    by apply Permutation_rev.
  assert (H2 : distinctMins mockTaxBrackets)
    by (split; repeat constructor; vm_compute; discriminate).
  split; [exact H1|]. split; [exact H2|]. split; [reflexivity|].
  split; [reflexivity|].
  apply (order_independent (Num 75000)
           1%positive (initialState mockTaxBrackets) mockTaxBrackets
           1%positive (initialState (rev mockTaxBrackets)) (rev mockTaxBrackets)
           H1 H2 eq_refl eq_refl).
Defined.

(** * Further properties of [calculateTaxes] *)

(** ** Order and size of the result *)

Lemma StronglySorted_filter {A} (R : A -> A -> Prop) (p : A -> bool) l :
  StronglySorted R l -> StronglySorted R (List.filter p l).
Proof.
  induction 1 as [|x l Hs IH Hx]; simpl; [constructor|].
  destruct (p x); [|exact IH]. constructor; [exact IH|].
  rewrite List.Forall_forall in *. intros y Hy%filter_In. now apply Hx.
Qed.

Lemma StronglySorted_allocations (R : TaxBracket -> TaxBracket -> Prop)
    income l :
  StronglySorted R l ->
  StronglySorted (fun c d => R (bracket c) (bracket d))
    (map (allocation income) l).
Proof.
  induction 1 as [|x l Hs IH Hx]; simpl; constructor; [exact IH|].
  rewrite List.Forall_forall in *. intros c (b & <- & Hb)%in_map_iff.
  simpl. now apply Hx.
Qed.

(** X1.  The allocations come back in ascending order of the [min] of their
    brackets, whatever the order of the array was (for brackets with a
    finite [min]). *)
Theorem allocations_ascending income l s bs :
  heap s !! l = Some bs ->
  Forall (fun b => isFinite (min b)) bs ->
  exists calcs s',
    calculateTaxes income l s = Some (calcs, s') /\
    StronglySorted
      (fun c d => minOf (bracket c) <= minOf (bracket d)) calcs.
Proof.
  intros Hl Hfin. rewrite (calculateTaxes_run _ _ _ _ Hl).
  eexists _, _. split; [reflexivity|].
  apply (StronglySorted_allocations (fun a b => minOf a <= minOf b)).
  apply StronglySorted_filter. now apply sorted_ascending.
Qed.

Lemma allocations_ascending_witness :
  let bs := rev mockTaxBrackets in
  heap (initialState bs) !! 1%positive = Some bs /\
  Forall (fun b => isFinite (min b)) bs /\
  exists calcs s',
    calculateTaxes (Num 75000) 1%positive (initialState bs)
      = Some (calcs, s') /\
    StronglySorted
      (fun c d => minOf (bracket c) <= minOf (bracket d)) calcs.
Proof.
  intros bs.
  assert (H : Forall (fun b => isFinite (min b)) bs) by (repeat constructor).
  split; [reflexivity|]. split; [exact H|].
  apply (allocations_ascending (Num 75000) 1%positive (initialState bs) bs
           eq_refl H).
Defined.

(** X2.  The [totalTax] that a call stores is the sum, in the order of the
    sequence, of the [taxPaid] of the allocations that it returns; there is
    at most one allocation per bracket of the array. *)
Theorem total_is_sum_of_allocations income l s bs :
  heap s !! l = Some bs ->
  exists calcs s',
    calculateTaxes income l s = Some (calcs, s') /\
    totalTax s' = fold_left add (map taxPaid calcs) (Num 0) /\
    (length calcs <= length bs)%nat.
Proof.
  intros Hl. rewrite (calculateTaxes_run _ _ _ _ Hl).
  eexists _, _. split; [reflexivity|]. split; [reflexivity|].
  unfold allocations. rewrite length_map.
  rewrite <- (Permutation_length (sorted_Permutation byMin bs)).
  apply List.filter_length_le.
Qed.

Lemma total_is_sum_of_allocations_witness :
  heap (initialState mockTaxBrackets) !! 1%positive = Some mockTaxBrackets /\
  exists calcs s',
    calculateTaxes (Num 75000) 1%positive (initialState mockTaxBrackets)
      = Some (calcs, s') /\
    totalTax s' = fold_left add (map taxPaid calcs) (Num 0) /\
    (length calcs <= length mockTaxBrackets)%nat.
Proof.
  split; [reflexivity|].
  apply (total_is_sum_of_allocations (Num 75000) 1%positive
           (initialState mockTaxBrackets) mockTaxBrackets eq_refl).
Defined.

(** ** How a band is filled *)

Lemma filled_band income b :
  emitted income b = true ->
  le (default Infinity (max b)) income = true ->
  sameValue (taxableInBand income b) (sub (default Infinity (max b)) (min b)).
Proof.
  unfold emitted, taxableInBand. destruct b as [mn [mx|] r]; simpl.
  - destruct mn, income, mx; simpl; try discriminate; try tauto;
      intros; finite_tests; minmax; lra.
  - destruct mn, income; simpl; try discriminate; try tauto;
      intros; finite_tests; minmax; lra.
Qed.

Lemma partly_filled_band income b :
  emitted income b = true ->
  le income (default Infinity (max b)) = true ->
  sameValue (taxableInBand income b) (sub income (min b)).
Proof.
  unfold emitted, taxableInBand. destruct b as [mn [mx|] r]; simpl.
  - destruct mn, income, mx; simpl; try discriminate; try tauto;
      intros; finite_tests; minmax; lra.
  - destruct mn, income; simpl; try discriminate; try tauto;
      intros; finite_tests; minmax; lra.
Qed.

(** X3.  An emitted band whose upper edge is at or below the income is taxed on
    its full width [upperEdge - min]; an emitted band whose upper edge is
    at or above the income (an open-ended band always is) is taxed on
    [income - min]. *)
Theorem band_filling income l s bs :
  heap s !! l = Some bs ->
  exists calcs s',
    calculateTaxes income l s = Some (calcs, s') /\
    forall c, In c calcs ->
      let upperEdge := default Infinity (max (bracket c)) in
      (le upperEdge income = true ->
       sameValue (taxableAmount c) (sub upperEdge (min (bracket c)))) /\
      (le income upperEdge = true ->
       sameValue (taxableAmount c) (sub income (min (bracket c)))).
Proof.
  intros Hl. rewrite (calculateTaxes_run _ _ _ _ Hl).
  eexists _, _. split; [reflexivity|].
  intros c (b & _ & He & ->)%In_allocations. simpl. split.
  - now apply filled_band.
  - now apply partly_filled_band.
Qed.

Lemma band_filling_witness :
  heap (initialState mockTaxBrackets) !! 1%positive = Some mockTaxBrackets /\
  exists calcs s',
    calculateTaxes (Num 150000) 1%positive (initialState mockTaxBrackets)
      = Some (calcs, s') /\
    forall c, In c calcs ->
      let upperEdge := default Infinity (max (bracket c)) in
      (le upperEdge (Num 150000) = true ->
       sameValue (taxableAmount c) (sub upperEdge (min (bracket c)))) /\
      (le (Num 150000) upperEdge = true ->
       sameValue (taxableAmount c) (sub (Num 150000) (min (bracket c)))).
Proof.
  split; [reflexivity|].
  apply (band_filling (Num 150000) 1%positive
           (initialState mockTaxBrackets) mockTaxBrackets eq_refl).
Defined.

(** ** Brackets that contribute nothing *)

Lemma byMin_not_positive a b :
  isFinite (min a) -> isFinite (min b) ->
  gt (byMin a b) (Num 0) = false <-> minOf a <= minOf b.
Proof.
  intros Ha Hb. rewrite <- not_true_iff_false, (byMin_positive a b Ha Hb).
  unfold minBefore. split; intros H; [apply Qnot_lt_le, H | lra].
Qed.

Lemma insertSorted_first x l :
  isFinite (min x) ->
  Forall (fun y => isFinite (min y) /\ minOf x <= minOf y) l ->
  insertSorted byMin x l = x :: l.
Proof.
  intros Hx Hl. destruct l as [|y l]; [reflexivity|]. simpl.
  inversion Hl as [|? ? [Hy Hle] _]; subst.
  now rewrite (proj2 (byMin_not_positive x y Hx Hy) Hle).
Qed.

Lemma insertSorted_filter (p : TaxBracket -> bool) x l :
  isFinite (min x) ->
  Forall (fun y => isFinite (min y)) l ->
  StronglySorted (fun a b => minOf a <= minOf b) l ->
  List.filter p (insertSorted byMin x l) =
  if p x then insertSorted byMin x (List.filter p l) else List.filter p l.
Proof.
  intros Hx Hfin Hs. induction Hs as [|y l Hs IH Hy].
  - simpl. now destruct (p x).
  - inversion Hfin as [|? ? Hfy Hfl]; subst. specialize (IH Hfl).
    cbn [insertSorted]. destruct (gt (byMin x y) (Num 0)) eqn:E.
    + cbn [List.filter]. rewrite IH.
      destruct (p x), (p y); cbn [insertSorted]; rewrite ?E; reflexivity.
    + apply byMin_not_positive in E; [|assumption..].
      change (List.filter p (x :: y :: l))
        with (if p x then x :: List.filter p (y :: l)
              else List.filter p (y :: l)).
      destruct (p x); [|reflexivity].
      symmetry. apply insertSorted_first; [exact Hx|].
      apply List.Forall_forall. intros z [Hz _]%filter_In.
      rewrite List.Forall_forall in Hfin, Hy.
      split; [now apply Hfin|].
      destruct Hz as [<-|Hz]; [exact E|].
      specialize (Hy z Hz). simpl in Hy. lra.
Qed.

(** On finite [min] values, sorting commutes with leaving brackets out. *)
Lemma sorted_filter (p : TaxBracket -> bool) bs :
  Forall (fun b => isFinite (min b)) bs ->
  sorted byMin (List.filter p bs) = List.filter p (sorted byMin bs).
Proof.
  induction 1 as [|x l Hx Hl IH]; [reflexivity|].
  cbn [sorted]. rewrite insertSorted_filter;
    [|exact Hx | now apply Forall_sorted | now apply sorted_ascending].
  cbn [List.filter]. destruct (p x); [cbn [sorted]; now rewrite IH | exact IH].
Qed.

Lemma filter_twice {A} (p : A -> bool) l :
  List.filter p (List.filter p l) = List.filter p l.
Proof.
  induction l as [|x l IH]; simpl; [reflexivity|].
  destruct (p x) eqn:E; simpl; rewrite ?E, IH; reflexivity.
Qed.

(** X4.  Brackets that contribute nothing to an income (those above it, and the
    degenerate ones) can be left out of the array: the calculation on the
    remaining brackets returns the same allocations and stores the same
    [totalTax] and [effectiveRate] (for brackets with a finite [min]). *)
Theorem idle_brackets_can_be_dropped income l1 s1 l2 s2 bs :
  Forall (fun b => isFinite (min b)) bs ->
  heap s1 !! l1 = Some bs ->
  heap s2 !! l2 =
    Some (List.filter (fun b => gt (taxableInBand income b) (Num 0)) bs) ->
  exists calcs s1' s2',
    calculateTaxes income l1 s1 = Some (calcs, s1') /\
    calculateTaxes income l2 s2 = Some (calcs, s2') /\
    totalTax s1' = totalTax s2' /\
    effectiveRate s1' = effectiveRate s2'.
Proof.
  intros Hfin H1 H2.
  rewrite (calculateTaxes_run _ _ _ _ H1), (calculateTaxes_run _ _ _ _ H2).
  set (bs' := List.filter _ bs).
  assert (Ha : allocations income bs' = allocations income bs).
  { unfold allocations, bs'.
    rewrite (sorted_filter _ bs Hfin). unfold emitted.
    now rewrite filter_twice. }
  assert (Ht : total income bs' = total income bs)
    by (unfold total; now rewrite Ha).
  eexists _, _, _. split; [reflexivity|]. split; [now rewrite Ha|].
  simpl. now rewrite Ht.
Qed.

Lemma idle_brackets_can_be_dropped_witness :
  let bs := rev mockTaxBrackets in
  let kept :=
    List.filter (fun b => gt (taxableInBand (Num 75000) b) (Num 0)) bs in
  Forall (fun b => isFinite (min b)) bs /\
  heap (initialState bs) !! 1%positive = Some bs /\
  heap (initialState kept) !! 1%positive = Some kept /\
  exists calcs s1' s2',
    calculateTaxes (Num 75000) 1%positive (initialState bs)
      = Some (calcs, s1') /\
    calculateTaxes (Num 75000) 1%positive (initialState kept)
      = Some (calcs, s2') /\
    totalTax s1' = totalTax s2' /\
    effectiveRate s1' = effectiveRate s2'.
Proof.
  intros bs kept.
  assert (H : Forall (fun b => isFinite (min b)) bs) by (repeat constructor).
  split; [exact H|]. split; [reflexivity|]. split; [reflexivity|].
  apply (idle_brackets_can_be_dropped (Num 75000)
           1%positive (initialState bs) 1%positive (initialState kept) bs
           H eq_refl eq_refl).
Defined.

(** ** An income that is not positive *)

Lemma emitted_nonpositive i b :
  i <= 0 -> le (Num 0) (min b) = true -> emitted (Num i) b = false.
Proof.
  intros Hi Hmin. destruct (min b) as [m| | |] eqn:E; try discriminate.
  - apply le_Num in Hmin. destruct (Qlt_le_dec i m) as [H|H].
    + apply emitted_above. rewrite E. apply gt_Num, H.
    + apply emitted_at_income. rewrite E. simpl. lra.
  - apply emitted_above. now rewrite E.
Qed.

Lemma filter_none {A} (p : A -> bool) l :
  (forall x, In x l -> p x = false) -> List.filter p l = [].
Proof.
  induction l as [|x l IH]; intros H; simpl; [reflexivity|].
  rewrite (H x) by (simpl; auto). apply IH. intros y Hy. apply H. simpl; auto.
Qed.

(** X5.  For an income of 0 or less and brackets whose [min] is at least 0, the
    calculation returns no allocation and stores [totalTax] = 0; the stored
    [effectiveRate] is [NaN] for the income 0 (the division 0 / 0) and 0 for
    a negative income. *)
Theorem nonpositive_income i l s bs :
  i <= 0 ->
  heap s !! l = Some bs ->
  Forall (fun b => le (Num 0) (min b) = true) bs ->
  exists s',
    calculateTaxes (Num i) l s = Some ([], s') /\
    totalTax s' = Num 0 /\
    (i == 0 -> effectiveRate s' = NaN) /\
    (i < 0 -> sameValue (effectiveRate s') (Num 0)).
Proof.
  intros Hi Hl Hmin. rewrite (calculateTaxes_run _ _ _ _ Hl).
  assert (Ha : allocations (Num i) bs = []).
  { unfold allocations. rewrite filter_none; [reflexivity|].
    intros b Hb%In_sorted. apply emitted_nonpositive; [exact Hi|].
    rewrite List.Forall_forall in Hmin. now apply Hmin. }
  assert (Ht : total (Num i) bs = Num 0) by (unfold total; now rewrite Ha).
  exists (stateAfter (Num i) bs s). rewrite Ha.
  split; [reflexivity|]. split; [exact Ht|].
  cbn [effectiveRate stateAfter]. rewrite Ht. unfold div. split.
  - intros E%Qeq_bool_iff. now rewrite E.
  - intros Hneg. assert (E : Qeq_bool i 0 = false).
    { apply not_true_iff_false. intros E%Qeq_bool_iff. lra. }
    rewrite E. simpl. field. lra.
Qed.

Lemma nonpositive_income_witness :
  0 <= 0 /\
  heap (initialState mockTaxBrackets) !! 1%positive = Some mockTaxBrackets /\
  Forall (fun b => le (Num 0) (min b) = true) mockTaxBrackets /\
  exists s',
    calculateTaxes (Num 0) 1%positive (initialState mockTaxBrackets)
      = Some ([], s') /\
    totalTax s' = Num 0 /\
    (0 == 0 -> effectiveRate s' = NaN) /\
    (0 < 0 -> sameValue (effectiveRate s') (Num 0)).
Proof.
  assert (H1 : 0 <= 0) by (vm_compute; discriminate).
  assert (H2 : Forall (fun b => le (Num 0) (min b) = true) mockTaxBrackets)
    by (repeat constructor).
  split; [exact H1|]. split; [reflexivity|]. split; [exact H2|].
  apply (nonpositive_income 0 1%positive (initialState mockTaxBrackets)
           mockTaxBrackets H1 eq_refl H2).
Defined.

(** ** The result depends on the income and the brackets only *)

(** X6.  The allocations, [totalTax] and [effectiveRate] of a call depend only
    on the income and on the elements of the array: not on its location,
    not on the other arrays of the heap and not on the values that an
    earlier call stored.  In particular a second call in the state that the
    first call leaves behind gives the same result. *)
Theorem result_independent_of_state income l1 s1 l2 s2 bs :
  heap s1 !! l1 = Some bs ->
  heap s2 !! l2 = Some bs ->
  exists calcs s1' s2' s1'',
    calculateTaxes income l1 s1 = Some (calcs, s1') /\
    calculateTaxes income l2 s2 = Some (calcs, s2') /\
    calculateTaxes income l1 s1' = Some (calcs, s1'') /\
    totalTax s1' = totalTax s2' /\ effectiveRate s1' = effectiveRate s2' /\
    totalTax s1'' = totalTax s1' /\ effectiveRate s1'' = effectiveRate s1'.
Proof.
  intros H1 H2.
  assert (H1' : heap (stateAfter income bs s1) !! l1 = Some bs).
  { simpl. rewrite lookup_insert_ne; [exact H1|].
    intros <-. rewrite fresh_location_free in H1. discriminate. }
  rewrite (calculateTaxes_run _ _ _ _ H1), (calculateTaxes_run _ _ _ _ H2).
  eexists _, _, _, _. split; [reflexivity|]. split; [reflexivity|].
  split; [apply (calculateTaxes_run _ _ _ _ H1')|].
  repeat split.
Qed.

Lemma result_independent_of_state_witness :
  let s2 := mkState {[ 7%positive := mockTaxBrackets; 1%positive := [] ]}
              (Num 1) NaN in
  heap (initialState mockTaxBrackets) !! 1%positive = Some mockTaxBrackets /\
  heap s2 !! 7%positive = Some mockTaxBrackets /\
  exists calcs s1' s2' s1'',
    calculateTaxes (Num 75000) 1%positive (initialState mockTaxBrackets)
      = Some (calcs, s1') /\
    calculateTaxes (Num 75000) 7%positive s2 = Some (calcs, s2') /\
    calculateTaxes (Num 75000) 1%positive s1' = Some (calcs, s1'') /\
    totalTax s1' = totalTax s2' /\ effectiveRate s1' = effectiveRate s2' /\
    totalTax s1'' = totalTax s1' /\ effectiveRate s1'' = effectiveRate s1'.
Proof.
  intros s2. split; [reflexivity|]. split; [reflexivity|].
  apply (result_independent_of_state (Num 75000)
           1%positive (initialState mockTaxBrackets) 7%positive s2
           mockTaxBrackets eq_refl eq_refl).
Defined.

(** * The schemas *)

Lemma validate_salary v :
  validate salarySchema v =
  match v with
  | NaN => Some SchemaTypeError
  | _ => if gt v (Num 0)
         then if le v (Num 10000000) then None
              else Some (Text "Salary cannot exceed 10M")
         else Some (Text "Salary must be positive")
  end.
Proof. destruct v; reflexivity. Qed.

Lemma validate_taxYear v :
  validate taxYearSchema v =
  match v with
  | NaN => Some SchemaTypeError
  | _ => if le (Num 2019) v
         then if le v (Num 2022) then None
              else Some (Text "Tax year cannot exceed 2022")
         else Some (Text "Tax year must be 2019 or later")
  end.
Proof. destruct v; reflexivity. Qed.

(** X10.  The salary schema accepts exactly the finite numbers that are greater
    than 0 and at most 10,000,000.  It rejects a number of 0 or less (and
    [-Infinity]) with 'Salary must be positive', a number above 10,000,000
    (and [Infinity]) with 'Salary cannot exceed 10M', and [NaN] with the
    type error of the library. *)
Theorem salary_validation :
  (forall v, validate salarySchema v = None <->
             exists q, v = Num q /\ 0 < q /\ q <= 10000000) /\
  (forall q, q <= 0 ->
     validate salarySchema (Num q) = Some (Text "Salary must be positive")) /\
  (forall q, 10000000 < q ->
     validate salarySchema (Num q) = Some (Text "Salary cannot exceed 10M")) /\
  validate salarySchema NegInfinity = Some (Text "Salary must be positive") /\
  validate salarySchema Infinity = Some (Text "Salary cannot exceed 10M") /\
  validate salarySchema NaN = Some SchemaTypeError.
Proof.
  split; [|split; [|split; [|repeat split]]].
  - intros v. rewrite validate_salary. split.
    + destruct v as [q| | |]; try discriminate.
      destruct (gt (Num q) (Num 0)) eqn:E1; [|discriminate].
      destruct (le (Num q) (Num 10000000)) eqn:E2; [|discriminate].
      intros _. exists q. finite_tests. auto.
    + intros (q & -> & H1 & H2).
      rewrite (proj2 (gt_Num q 0) H1), (proj2 (le_Num q 10000000) H2).
      reflexivity.
  - intros q Hq. rewrite validate_salary.
    now rewrite (proj2 (gt_Num_false q 0) Hq).
  - intros q Hq. rewrite validate_salary.
    assert (H0 : 0 < q) by lra.
    rewrite (proj2 (gt_Num q 0) H0).
    destruct (le (Num q) (Num 10000000)) eqn:E; [|reflexivity].
    finite_tests. lra.
Qed.

(** X11.  The tax-year schema accepts exactly the finite numbers from 2019 to
    2022, and the years that the select offers ([TAXABLE_YEARS]) are exactly
    the whole numbers that it accepts. *)
Theorem tax_year_validation :
  (forall v, validate taxYearSchema v = None <->
             exists q, v = Num q /\ 2019 <= q /\ q <= 2022) /\
  (forall z : Z, In (Num (inject_Z z)) TAXABLE_YEARS <->
                 validate taxYearSchema (Num (inject_Z z)) = None).
Proof.
  assert (Hacc : forall v, validate taxYearSchema v = None <->
                   exists q, v = Num q /\ 2019 <= q /\ q <= 2022).
  { intros v. rewrite validate_taxYear. split.
    - destruct v as [q| | |]; try discriminate.
      destruct (le (Num 2019) (Num q)) eqn:E1; [|discriminate].
      destruct (le (Num q) (Num 2022)) eqn:E2; [|discriminate].
      intros _. exists q. finite_tests. auto.
    - intros (q & -> & H1 & H2).
      rewrite (proj2 (le_Num 2019 q) H1), (proj2 (le_Num q 2022) H2).
      reflexivity. }
  split; [exact Hacc|].
  intros z. rewrite Hacc. split.
  - intros Hin. exists (inject_Z z). split; [reflexivity|].
    simpl in Hin.
    destruct Hin as [H|[H|[H|[H|H]]]]; [..|destruct H];
      injection H as <-; split; vm_compute; discriminate.
  - intros (q & Hq & H1 & H2). injection Hq as <-.
    change 2019 with (inject_Z 2019) in H1.
    change 2022 with (inject_Z 2022) in H2.
    rewrite <- Zle_Qle in H1, H2.
    assert (Hz : (z = 2019 \/ z = 2020 \/ z = 2021 \/ z = 2022)%Z) by lia.
    simpl. destruct Hz as [-> | [-> | [-> | ->]]]; auto.
Qed.

(** * Submitting the form *)

Lemma validate_message_truthy field v m :
  validate (match field with Salary => salarySchema | TaxYear => taxYearSchema end) v
    = Some m ->
  truthyMessage (Some m) = true.
Proof.
  destruct field; [rewrite validate_salary | rewrite validate_taxYear];
    destruct v; simpl;
    repeat match goal with
           | |- context [if ?b then _ else _] => destruct b
           end;
    intros [= <-]; reflexivity.
Qed.

Section Submit.
Context (Number : string -> number) (api_get : string -> ApiResult).

Lemma validateField_result field value c :
  validateField Number field value c =
  (match validate (match field with Salary => salarySchema | TaxYear => taxYearSchema end)
           (Number value) with None => true | Some _ => false end,
   setValidationError field
     (validate (match field with Salary => salarySchema | TaxYear => taxYearSchema end)
        (Number value)) c).
Proof. unfold validateField. now destruct (validate _ (Number value)). Qed.

(** X12.  When the salary or the tax year of the form does not pass its schema,
    submitting asks the API for nothing and shows no toast; it clears the
    allocations, so that no table of results is rendered; it leaves
    [totalTax], [effectiveRate], the heap and [loading] as they were; and
    it records for each field the outcome of its validation. *)
Theorem submit_aborted_on_invalid_input c :
  validate salarySchema (Number (salary c)) <> None \/
  validate taxYearSchema (Number (taxYear c)) <> None ->
  let c' := handleSubmit Number api_get c in
  requests c' = requests c /\
  toasts c' = toasts c /\
  calculations c' = [] /\ resultsShown c' = false /\
  memory c' = memory c /\ loading c' = loading c /\
  validationErrors c' Salary = validate salarySchema (Number (salary c)) /\
  validationErrors c' TaxYear = validate taxYearSchema (Number (taxYear c)).
Proof.
  intros H c'. subst c'. unfold handleSubmit.
  rewrite !validateField_result.
  destruct (validate salarySchema (Number (salary c))) as [m1|] eqn:E1;
    destruct (validate taxYearSchema (Number (taxYear c))) as [m2|] eqn:E2;
    cbn; try (repeat split; reflexivity).
  destruct H as [H|H]; congruence.
Qed.

(** X13.  When both fields pass their schemas and the request to the API fails,
    submitting has asked for the brackets of the tax year, once; it shows
    one toast, titled 'Error', whose description is the message of the
    failure; it leaves no allocations, [loading] false, and [totalTax],
    [effectiveRate] and the heap as they were. *)
Theorem submit_reports_api_failure c r :
  validate salarySchema (Number (salary c)) = None ->
  validate taxYearSchema (Number (taxYear c)) = None ->
  api_get ("/tax-calculator/tax-year/" ++ taxYear c)%string = r ->
  (forall bs, r <> Resolves bs) ->
  let c' := handleSubmit Number api_get c in
  requests c' =
    requests c ++ [("/tax-calculator/tax-year/" ++ taxYear c)%string] /\
  toasts c' =
    toasts c ++
    [mkToast "Error" (errorMessage (rethrown r)) "error" (Num 5000) true] /\
  calculations c' = [] /\ resultsShown c' = false /\
  loading c' = false /\
  memory c' = memory c.
Proof.
  intros H1 H2 Hr Hfail c'. subst c'. unfold handleSubmit.
  rewrite !validateField_result. cbn [salary taxYear setCalculations].
  rewrite H1, H2. cbn [negb orb]. unfold fetchTaxBrackets.
  cbn [taxYear setLoading setValidationError request]. rewrite Hr.
  destruct r as [bs|m e|t]; [now destruct (Hfail bs)|..];
    repeat split; reflexivity.
Qed.

(** X14.  When both fields pass their schemas and the API answers with brackets,
    submitting has asked for the brackets of the tax year, once, and shows
    no toast; the income that it passes to [calculateTaxes] is a finite
    number above 0 and at most 10,000,000; the allocations, [totalTax] and
    [effectiveRate] of the component are those of this call on the array
    of the response; [loading] is false and no validation error is left. *)
Theorem submit_shows_the_calculation c bs :
  validate salarySchema (Number (salary c)) = None ->
  validate taxYearSchema (Number (taxYear c)) = None ->
  api_get ("/tax-calculator/tax-year/" ++ taxYear c)%string = Resolves bs ->
  let c' := handleSubmit Number api_get c in
  requests c' =
    requests c ++ [("/tax-calculator/tax-year/" ++ taxYear c)%string] /\
  toasts c' = toasts c /\
  loading c' = false /\
  validationErrors c' Salary = None /\ validationErrors c' TaxYear = None /\
  (exists q, Number (salary c) = Num q /\ 0 < q /\ q <= 10000000) /\
  calculateTaxes (Number (salary c))
    (fst (receive bs (memory c))) (snd (receive bs (memory c)))
    = Some (calculations c', memory c').
Proof.
  intros H1 H2 Hr c'.
  assert (Hq : exists q, Number (salary c) = Num q /\ 0 < q /\ q <= 10000000)
    by (apply (proj1 salary_validation), H1).
  assert (Hl : heap (snd (receive bs (memory c)))
                 !! fst (receive bs (memory c)) = Some bs)
    by apply lookup_insert_eq.
  pose proof (calculateTaxes_run (Number (salary c)) _ _ _ Hl) as Hrun.
  assert (Hc : c' =
    setLoading false
      (setCalculations (allocations (Number (salary c)) bs)
         (setMemory
            (stateAfter (Number (salary c)) bs (snd (receive bs (memory c))))
            (request ("/tax-calculator/tax-year/" ++ taxYear c)%string
               (setLoading true
                  (setValidationError TaxYear None
                     (setValidationError Salary None
                        (setCalculations [] c)))))))).
  { subst c'. unfold handleSubmit.
    rewrite !validateField_result. cbn [salary taxYear setCalculations].
    rewrite H1, H2. cbn [negb orb]. unfold fetchTaxBrackets.
    cbn [taxYear setLoading setValidationError request]. rewrite Hr.
    cbn [receive memory setMemory fst snd request setLoading
         setValidationError setCalculations] in *.
    now rewrite Hrun. }
  rewrite Hc. cbn -[receive stateAfter allocations].
  do 5 (split; [reflexivity|]). split; [exact Hq | exact Hrun].
Qed.

End Submit.

(** * The submit button *)

Lemma truthy_spec s : truthy s = true <-> s <> "".
Proof.
  unfold truthy. rewrite negb_true_iff. apply String.eqb_neq.
Qed.

Lemma truthyMessage_validate field v :
  truthyMessage
    (validate (match field with Salary => salarySchema | TaxYear => taxYearSchema end) v)
    = false <->
  validate (match field with Salary => salarySchema | TaxYear => taxYearSchema end) v
    = None.
Proof.
  split.
  - destruct (validate _ v) as [m|] eqn:E; [|reflexivity].
    rewrite (validate_message_truthy field v m E). discriminate.
  - now intros ->.
Qed.

Section SubmitButton.
Context (Number : string -> number) (api_get : string -> ApiResult).

Lemma handleSubmit_requests c :
  validate salarySchema (Number (salary c)) = None ->
  validate taxYearSchema (Number (taxYear c)) = None ->
  requests (handleSubmit Number api_get c) =
  requests c ++ [("/tax-calculator/tax-year/" ++ taxYear c)%string].
Proof.
  intros H1 H2. unfold handleSubmit.
  rewrite !validateField_result. cbn [salary taxYear setCalculations].
  rewrite H1, H2. cbn [negb orb]. unfold fetchTaxBrackets.
  cbn [taxYear setLoading setValidationError request].
  destruct (api_get _) as [bs|m e|t]; try reflexivity.
  cbn [receive memory setMemory fst snd request setLoading
       setValidationError setCalculations].
  now destruct (calculateTaxes _ _ _) as [[results m]|].
Qed.

(** X15.  After the user has typed a salary [v] and chosen a tax year [y], the
    submit button is enabled exactly when both texts are non-empty and
    both pass their schemas; and whenever it is enabled, submitting gets as
    far as asking the API for the brackets of the year [y]. *)
Theorem enabled_submit_reaches_the_api v y c :
  let c' := handleTaxYearChange Number y (handleSalaryChange Number v c) in
  (isSubmitDisabled c' = false <->
   v <> "" /\ y <> "" /\
   validate salarySchema (Number v) = None /\
   validate taxYearSchema (Number y) = None) /\
  (isSubmitDisabled c' = false ->
   requests (handleSubmit Number api_get c') =
   requests c ++ [("/tax-calculator/tax-year/" ++ y)%string]).
Proof.
  intros c'.
  assert (Hs : salary c' = v /\ taxYear c' = y /\ requests c' = requests c /\
               validationErrors c' Salary = validate salarySchema (Number v) /\
               validationErrors c' TaxYear = validate taxYearSchema (Number y)).
  { subst c'. unfold handleTaxYearChange, handleSalaryChange.
    rewrite !validateField_result. cbn. repeat split. }
  destruct Hs as (Hsal & Hyear & Hreq & He1 & He2).
  assert (Hiff : isSubmitDisabled c' = false <->
                 v <> "" /\ y <> "" /\
                 validate salarySchema (Number v) = None /\
                 validate taxYearSchema (Number y) = None).
  { unfold isSubmitDisabled. rewrite Hsal, Hyear, He1, He2.
    rewrite !orb_false_iff, !negb_false_iff, !truthy_spec.
    rewrite (truthyMessage_validate Salary), (truthyMessage_validate TaxYear).
    tauto. }
  split; [exact Hiff|].
  intros (_ & _ & H1 & H2)%Hiff.
  rewrite handleSubmit_requests; rewrite ?Hsal, ?Hyear, ?Hreq; auto.
Qed.

End SubmitButton.

(** ** Examples of the properties of the form *)

Lemma submit_aborted_on_invalid_input_witness :
  let c := setSalary "-1000" mounted in
  (validate salarySchema (sampleNumber (salary c)) <> None \/
   validate taxYearSchema (sampleNumber (taxYear c)) <> None) /\
  let c' := handleSubmit sampleNumber sampleApi c in
  requests c' = requests c /\
  toasts c' = toasts c /\
  calculations c' = [] /\ resultsShown c' = false /\
  memory c' = memory c /\ loading c' = loading c /\
  validationErrors c' Salary = validate salarySchema (sampleNumber (salary c)) /\
  validationErrors c' TaxYear = validate taxYearSchema (sampleNumber (taxYear c)).
Proof.
  intros c.
  assert (H : validate salarySchema (sampleNumber (salary c)) <> None \/
              validate taxYearSchema (sampleNumber (taxYear c)) <> None)
    by (left; vm_compute; discriminate).
  split; [exact H|].
  apply (submit_aborted_on_invalid_input sampleNumber sampleApi c H).
Defined.

Lemma submit_reports_api_failure_witness :
  let c := setSalary "75000" mounted in
  let r := Rejects (ErrorObject (Text "API Error")) in
  validate salarySchema (sampleNumber (salary c)) = None /\
  validate taxYearSchema (sampleNumber (taxYear c)) = None /\
  failingApi ("/tax-calculator/tax-year/" ++ taxYear c)%string = r /\
  (forall bs, r <> Resolves bs) /\
  let c' := handleSubmit sampleNumber failingApi c in
  requests c' =
    requests c ++ [("/tax-calculator/tax-year/" ++ taxYear c)%string] /\
  toasts c' =
    toasts c ++
    [mkToast "Error" (errorMessage (rethrown r)) "error" (Num 5000) true] /\
  calculations c' = [] /\ resultsShown c' = false /\
  loading c' = false /\
  memory c' = memory c.
Proof.
  intros c r.
  assert (H : forall bs, r <> Resolves bs) by (intros bs; discriminate).
  split; [reflexivity|]. split; [reflexivity|]. split; [reflexivity|].
  split; [exact H|].
  apply (submit_reports_api_failure sampleNumber failingApi c r
           eq_refl eq_refl eq_refl H).
Defined.

Lemma submit_shows_the_calculation_witness :
  let c := setSalary "75000" mounted in
  validate salarySchema (sampleNumber (salary c)) = None /\
  validate taxYearSchema (sampleNumber (taxYear c)) = None /\
  sampleApi ("/tax-calculator/tax-year/" ++ taxYear c)%string
    = Resolves mockTaxBrackets /\
  let c' := handleSubmit sampleNumber sampleApi c in
  requests c' =
    requests c ++ [("/tax-calculator/tax-year/" ++ taxYear c)%string] /\
  toasts c' = toasts c /\
  loading c' = false /\
  validationErrors c' Salary = None /\ validationErrors c' TaxYear = None /\
  (exists q, sampleNumber (salary c) = Num q /\ 0 < q /\ q <= 10000000) /\
  calculateTaxes (sampleNumber (salary c))
    (fst (receive mockTaxBrackets (memory c)))
    (snd (receive mockTaxBrackets (memory c)))
    = Some (calculations c', memory c').
Proof.
  intros c.
  split; [reflexivity|]. split; [reflexivity|]. split; [reflexivity|].
  apply (submit_shows_the_calculation sampleNumber sampleApi c mockTaxBrackets
           eq_refl eq_refl eq_refl).
Defined.
